(** * Pythia policies and hosted designers: a shallow embedding

    The development follows docs/guides/developer/pythia_policies.ipynb
    (the toy policy [MyPolicy], the designers [MyDesigner],
    [CounterDesigner], [CounterSerialDesigner], [CounterPartialDesigner])
    and the Dockerfile of the repository.

    Python values are modelled as the code uses them: [int] as [Z],
    names and keys as [string], a [str] that [int] reads or [str] writes
    as its code points, lists as [list], dict-like containers
    ([vz.ParameterDict], [vz.Metadata]) as [gmap string _], and a call
    that may raise as a [result]. The interpreter is the one the
    Dockerfile installs, Python 3.11. *)

From Stdlib Require Import ZArith List Ascii String.
From Stdlib Require Import Decimal DecimalFacts DecimalPos DecimalZ.
From stdpp Require Import base option list gmap strings.

Local Open Scope string_scope.
Local Open Scope list_scope.
Local Open Scope Z_scope.

(** ** Python prelude *)

(** What the message of a [ValueError] says: a text the code gives, or
    one of the two messages of [int] and [str], held by what it is built
    from.
    - [InvalidLiteral s]: invalid literal for int() with base 10, followed
      by the repr of [s];
    - [IntMaxStrDigits d]: the limit (4300 digits) for integer string
      conversion is exceeded; [int] adds the number of digits [d] of the
      value, [str] does not. *)
Inductive message : Type :=
| Text (text : string)
| InvalidLiteral (s : list N)
| IntMaxStrDigits (digits : option nat).

Coercion Text : string >-> message.

(** The exceptions the modelled code can raise. *)
Inductive exn : Type :=
| ValueError (msg : message)
| ZeroDivisionError
| IndexError
| KeyError (key : string)
| AttributeError (attr : string).

Inductive result (A : Type) : Type :=
| Ok (a : A)
| Raise (e : exn).
Arguments Ok {A} a.
Arguments Raise {A} e.

Definition bind {A B} (r : result A) (k : A → result B) : result B :=
  match r with
  | Ok a => k a
  | Raise e => Raise e
  end.

Notation "'do' x <- r ; k" := (bind r (fun x => k))
  (at level 10, x name, r at level 100, k at level 200).

(** [a % b] on Python ints: floor modulo, the sign follows the divisor. *)
Definition py_mod (a b : Z) : result Z :=
  if b =? 0 then Raise ZeroDivisionError else Ok (a mod b).

(** [len(l)] *)
Definition len {A} (l : list A) : Z := Z.of_nat (length l).

(** [l[k]] on a Python list: negative indices count from the end. *)
Definition py_getitem {A} (l : list A) (k : Z) : result A :=
  let k' := if k <? 0 then k + len l else k in
  if k' <? 0 then Raise IndexError
  else match l !! Z.to_nat k' with
       | Some x => Ok x
       | None => Raise IndexError
       end.

(** [range(n)] *)
Definition range (n : Z) : list Z := Z.of_nat <$> seq 0 (Z.to_nat n).

(** [max(l)] on a list of ints. *)
Definition py_max (l : list Z) : result Z :=
  match l with
  | [] => Raise (ValueError "max() arg is an empty sequence")
  | x :: l' => Ok (foldl Z.max x l')
  end.

(** ** The pyvizier types the notebook reads ([vz]) *)

(** pyvizier is not part of the notebook: each type below carries the
    fields the notebook reads or writes, under the names it uses. *)
Module vz.

(** Modelled from the spec: the enum of parameter types is declared in
    pyvizier, outside the notebook, under the name [ParameterType]. *)
Inductive ParameterType : Type :=
| DOUBLE | INTEGER | CATEGORICAL | DISCRETE | CUSTOM.

#[global] Instance ParameterType_eq_dec : EqDecision ParameterType.
Proof. solve_decision. Defined.

(** The notebook writes [vz.ParamterType.CATEGORICAL]: pyvizier has no
    attribute of that name, and looking it up raises. *)
Module ParamterType.
Definition CATEGORICAL : result ParameterType :=
  Raise (AttributeError "ParamterType").
End ParamterType.

(** Modelled from the spec: the values a parameter can take (declared in
    pyvizier); a float is carried by its literal. *)
Inductive ParameterValueTypes : Type :=
| VStr (s : string)
| VInt (n : Z)
| VBool (b : bool)
| VFloat (literal : string).

Record ParameterValue : Type := { value : ParameterValueTypes }.

(** Modelled from the spec: a parameter definition of the search space
    (declared in pyvizier), with the three attributes [make_parameters]
    reads. *)
Record ParameterConfig : Type := {
  name : string;
  type : ParameterType;
  feasible_values : list ParameterValueTypes;
}.

Record SearchSpace : Type := { parameters : list ParameterConfig }.

Inductive TrialStatus : Type :=
| UNKNOWN | REQUESTED | ACTIVE | COMPLETED | STOPPING.

(** Modelled from the spec: a trial (declared in pyvizier) has an id, a
    status, parameters and metadata; the notebook reads the id. *)
Record Trial : Type := {
  id : Z;
  status : TrialStatus;
  trial_parameters : gmap string ParameterValue;
  trial_metadata : gmap string (list N);
}.

Record TrialSuggestion : Type := {
  suggestion_parameters : gmap string ParameterValue;
}.

Record StudyConfig : Type := { search_space : SearchSpace }.

End vz.

(** ** [make_parameters] *)

Definition only_categorical : string :=
  "This function only supports CATEGORICAL parameters.".

(** The body of the [for parameter_config in search_space.parameters]
    loop, threaded over the dict built so far. *)
Fixpoint make_parameters_loop (parameters : list vz.ParameterConfig) (index : Z)
    (parameter_dict : gmap string vz.ParameterValue)
  : result (gmap string vz.ParameterValue) :=
  match parameters with
  | [] => Ok parameter_dict
  | parameter_config :: rest =>
      do CATEGORICAL <- vz.ParamterType.CATEGORICAL;
      if decide (vz.type parameter_config ≠ CATEGORICAL) then
        Raise (ValueError only_categorical)
      else
        let feasible_values := vz.feasible_values parameter_config in
        do k <- py_mod index (len feasible_values);
        do v <- py_getitem feasible_values k;
        make_parameters_loop rest index
          (<[vz.name parameter_config := {| vz.value := v |}]> parameter_dict)
  end.

Definition make_parameters (search_space : vz.SearchSpace) (index : Z)
  : result (gmap string vz.ParameterValue) :=
  make_parameters_loop (vz.parameters search_space) index ∅.

(** ** Python [str] and [int] on the values a counter holds *)

(** A [str] as [int] and [str] see it: the sequence of its code points. *)
Abbreviation str := (list N).

(** The code points of a literal of ASCII characters. *)
Definition codepoints (s : string) : str :=
  N_of_ascii <$> list_ascii_of_string s.

(** A counter attribute holds what the code stores in it: the [int] given
    to a constructor, or the [str] read back from a [vz.Metadata]. *)
Inductive PyVal : Type :=
| PyInt (z : Z)
| PyStr (s : str).

(** [sys.int_info.default_max_str_digits] *)
Definition int_max_str_digits : nat := 4300.

Fixpoint codepoints_of_uint (u : uint) : str :=
  match u with
  | Nil => []
  | D0 u => 48%N :: codepoints_of_uint u
  | D1 u => 49%N :: codepoints_of_uint u
  | D2 u => 50%N :: codepoints_of_uint u
  | D3 u => 51%N :: codepoints_of_uint u
  | D4 u => 52%N :: codepoints_of_uint u
  | D5 u => 53%N :: codepoints_of_uint u
  | D6 u => 54%N :: codepoints_of_uint u
  | D7 u => 55%N :: codepoints_of_uint u
  | D8 u => 56%N :: codepoints_of_uint u
  | D9 u => 57%N :: codepoints_of_uint u
  end.

(** The decimal digits of an int, with [-] in front of a negative one. *)
Definition decimal (z : Z) : str :=
  match Z.to_int z with
  | Pos u => codepoints_of_uint u
  | Neg u => 45%N :: codepoints_of_uint u
  end.

(** The number of decimal digits of an int. *)
Definition decimal_digits (z : Z) : nat :=
  match Z.to_int z with
  | Pos u | Neg u => nb_digits u
  end.

(** [str(v)]: the decimal digits of an int, refused beyond the limit of
    4300 digits; a string as it is. *)
Definition py_str (v : PyVal) : result str :=
  match v with
  | PyInt z =>
      if (int_max_str_digits <? decimal_digits z)%nat
      then Raise (ValueError (IntMaxStrDigits None))
      else Ok (decimal z)
  | PyStr s => Ok s
  end.

(** ASCII whitespace ([Py_ISSPACE]). *)
Definition ascii_space (c : N) : bool :=
  ((9 <=? c) && (c <=? 13) || (c =? 32))%N.

(** The whitespace beyond ASCII (Unicode 14.0.0, as in Python 3.11). *)
Definition unicode_space (c : N) : bool :=
  ((c =? 0x85) || (c =? 0xA0) || (c =? 0x1680)
   || (0x2000 <=? c) && (c <=? 0x200A)
   || (c =? 0x2028) || (c =? 0x2029) || (c =? 0x202F) || (c =? 0x205F)
   || (c =? 0x3000))%N.

(** The code points of the digit zero in the scripts beyond ASCII
    (Unicode 14.0.0, category Nd): each is followed by the digits one to
    nine of its script. *)
Definition decimal_zeros : list N :=
  [ 0x660; 0x6F0; 0x7C0; 0x966; 0x9E6; 0xA66; 0xAE6; 0xB66; 0xBE6; 0xC66;
    0xCE6; 0xD66; 0xDE6; 0xE50; 0xED0; 0xF20; 0x1040; 0x1090; 0x17E0;
    0x1810; 0x1946; 0x19D0; 0x1A80; 0x1A90; 0x1B50; 0x1BB0; 0x1C40; 0x1C50;
    0xA620; 0xA8D0; 0xA900; 0xA9D0; 0xA9F0; 0xAA50; 0xABF0; 0xFF10;
    0x104A0; 0x10D30; 0x11066; 0x110F0; 0x11136; 0x111D0; 0x112F0; 0x11450;
    0x114D0; 0x11650; 0x116C0; 0x11730; 0x118E0; 0x11950; 0x11C50; 0x11D50;
    0x11DA0; 0x16A60; 0x16AC0; 0x16B50; 0x1D7CE; 0x1D7D8; 0x1D7E2; 0x1D7EC;
    0x1D7F6; 0x1E140; 0x1E2F0; 0x1E950; 0x1FBF0 ]%N.

(** The decimal value of a digit beyond ASCII. *)
Fixpoint unicode_decimal_from (zeros : list N) (c : N) : option N :=
  match zeros with
  | [] => None
  | digit_zero :: zeros =>
      if ((digit_zero <=? c) && (c <? digit_zero + 10))%N
      then Some (c - digit_zero)%N
      else unicode_decimal_from zeros c
  end.

Definition unicode_decimal (c : N) : option N :=
  unicode_decimal_from decimal_zeros c.

(** What [int] makes of a character before it parses: an ASCII character
    stays, other whitespace becomes a space, another decimal digit the
    ASCII digit of its value, and anything else a question mark. *)
Definition to_ascii (c : N) : N :=
  if (c <? 127)%N then c
  else if unicode_space c then 32%N
  else match unicode_decimal c with
       | Some d => (48 + d)%N
       | None => 63%N
       end.

Definition ascii_digit (c : N) : bool := ((48 <=? c) && (c <=? 57))%N.

(** The digit of value [c - 48] in front of [u]. *)
Definition cons_digit (c : N) (u : uint) : uint :=
  match (c - 48)%N with
  | 0%N => D0 u
  | 1%N => D1 u
  | 2%N => D2 u
  | 3%N => D3 u
  | 4%N => D4 u
  | 5%N => D5 u
  | 6%N => D6 u
  | 7%N => D7 u
  | 8%N => D8 u
  | _ => D9 u
  end.

(** The scan over the digits and underscores of a literal. It stops at the
    first other character and gives the digits read, whether the last
    character read was an underscore, and what is left; two underscores in
    a row end it with [None]. *)
Fixpoint scan (l : str) (prev_underscore : bool)
  : option (uint * (bool * str)) :=
  match l with
  | [] => Some (Nil, (prev_underscore, []))
  | c :: l' =>
      if ascii_digit c then
        match scan l' false with
        | Some (u, r) => Some (cons_digit c u, r)
        | None => None
        end
      else if (c =? 95)%N then
        if prev_underscore then None else scan l' true
      else Some (Nil, (prev_underscore, l))
  end.

Fixpoint lstrip (l : str) : str :=
  match l with
  | [] => []
  | c :: l' => if ascii_space c then lstrip l' else l
  end.

(** [int(v)]: an int as it is. Of a string, whitespace before and after
    is skipped and an optional sign is read; then come digits with single
    underscores between them, at least one and no more than 4300. *)
Definition py_int (v : PyVal) : result Z :=
  match v with
  | PyInt z => Ok z
  | PyStr s =>
      let invalid := Raise (ValueError (InvalidLiteral s)) in
      let l := lstrip (to_ascii <$> s) in
      let '(negative, l) :=
        match l with
        | c :: r =>
            if (c =? 43)%N then (false, r)
            else if (c =? 45)%N then (true, r)
            else (false, l)
        | [] => (false, l)
        end in
      match l with
      | c :: _ => if (c =? 95)%N then invalid else
          match scan l false with
          | None => invalid
          | Some (u, (prev_underscore, rest)) =>
              if prev_underscore : bool then invalid
              else if (int_max_str_digits <? nb_digits u)%nat then
                Raise (ValueError (IntMaxStrDigits (Some (nb_digits u))))
              else
                match u, lstrip rest with
                | Nil, _ => invalid
                | _, [] => Ok (if negative : bool then - Z.of_uint u
                               else Z.of_uint u)
                | _, _ :: _ => invalid
                end
          end
      | [] => invalid
      end
  end.

(** ** Metadata *)

Module Metadata.

(** [vz.Metadata()]: a key-value store of strings. *)
Definition new : gmap string str := ∅.

(** [metadata[key] = value] *)
Definition setitem (metadata : gmap string str) (key : string) (value : str)
  : gmap string str :=
  <[key := value]> metadata.

(** [metadata[key]] *)
Definition getitem (metadata : gmap string str) (key : string)
  : result str :=
  match metadata !! key with
  | Some v => Ok v
  | None => Raise (KeyError key)
  end.

End Metadata.

(** [vz.MetadataDelta()]: the metadata updates of a decision. *)
Record MetadataDelta : Type := {
  on_study : gmap string str;
  on_trials : gmap Z (gmap string str);
}.

Definition MetadataDelta_new : MetadataDelta :=
  {| on_study := ∅; on_trials := ∅ |}.

(** ** The pythia interface *)

Module pythia.

(** Modelled from the spec: a [PolicySupporter] (declared in vizier.pythia)
    is a client of the datastore: [GetTrials] answers from the state [Σ] of
    the world behind it, and may change it. *)
Record PolicySupporter (Σ : Type) : Type := {
  GetTrials : vz.TrialStatus → Σ → list vz.Trial * Σ;
}.
Arguments GetTrials {Σ} _ _ _.

Record SuggestRequest : Type := {
  study_config : vz.StudyConfig;
  count : Z;
}.

Record SuggestDecision : Type := {
  suggestions : list vz.TrialSuggestion;
  metadata : MetadataDelta;
}.

End pythia.

(** ** [get_next_index] *)

Definition get_next_index {Σ} (policy_supporter : pythia.PolicySupporter Σ)
    (σ : Σ) : result Z * Σ :=
  let '(completed, σ) := pythia.GetTrials policy_supporter vz.COMPLETED σ in
  let '(active, σ) := pythia.GetTrials policy_supporter vz.ACTIVE σ in
  let trial_ids := vz.id <$> (completed ++ active) in
  match trial_ids with
  | _ :: _ => (py_max trial_ids, σ)
  | [] => (Ok 0, σ)
  end.

(** ** [MyPolicy] *)

Module MyPolicy.

Record t (Σ : Type) : Type := {
  _policy_supporter : pythia.PolicySupporter Σ;
}.
Arguments _policy_supporter {Σ} _.

Definition __init__ {Σ} (policy_supporter : pythia.PolicySupporter Σ) : t Σ :=
  {| _policy_supporter := policy_supporter |}.

(** A method runs on the instance and on the world behind the supporter
    and hands both back. *)
Definition method (Σ A : Type) : Type := t Σ * Σ → result A * (t Σ * Σ).

(** The [for _ in range(request.count)] loop of [suggest]. *)
Fixpoint suggest_loop {Σ} (iterations : list Z) (request : pythia.SuggestRequest)
    (suggest_decision_list : list vz.TrialSuggestion)
  : method Σ (list vz.TrialSuggestion) :=
  fun '(self, σ) =>
    match iterations with
    | [] => (Ok suggest_decision_list, (self, σ))
    | _ :: iterations =>
        let '(r, σ) := get_next_index (_policy_supporter self) σ in
        match
          do index <- r;
          make_parameters
            (vz.search_space (pythia.study_config request)) index
        with
        | Raise e => (Raise e, (self, σ))
        | Ok parameters =>
            suggest_loop iterations request
              (suggest_decision_list
               ++ [{| vz.suggestion_parameters := parameters |}])
              (self, σ)
        end
    end.

Definition suggest {Σ} (request : pythia.SuggestRequest)
  : method Σ pythia.SuggestDecision :=
  fun st =>
    let '(r, st) := suggest_loop (range (pythia.count request)) request [] st in
    (do suggest_decision_list <- r;
     Ok {| pythia.suggestions := suggest_decision_list;
           pythia.metadata := MetadataDelta_new |},
     st).

End MyPolicy.

(** ** [MyDesigner] *)

(** Modelled from the spec: the two batches [update] receives (declared in
    vizier.algorithms), each with its [trials]. *)
Module algorithms.

Module CompletedTrials.
Record t : Type := { trials : list vz.Trial }.
End CompletedTrials.

Module ActiveTrials.
Record t : Type := { trials : list vz.Trial }.
End ActiveTrials.

End algorithms.

(** A list comprehension [[f(i) for i in items]]: evaluated left to right,
    the first exception ends it. *)
Fixpoint comprehension {A B} (f : A → result B) (items : list A)
  : result (list B) :=
  match items with
  | [] => Ok []
  | i :: items =>
      do x <- f i;
      do xs <- comprehension f items;
      Ok (x :: xs)
  end.

(** [update] extends the designer's own completed list, which no method
    hands out, by the elements of [completed.trials], and keeps
    [all_active.trials], which the designer never mutates: the batches are
    carried as values. *)
Module MyDesigner.

Record t : Type := {
  _study_config : vz.StudyConfig;
  _completed_trials : list vz.Trial;
  _active_trials : list vz.Trial;
}.

Definition __init__ (study_config : vz.StudyConfig) : t :=
  {| _study_config := study_config;
     _completed_trials := [];
     _active_trials := [] |}.

Definition update (self : t) (completed : algorithms.CompletedTrials.t)
    (all_active : algorithms.ActiveTrials.t) : t :=
  {| _study_config := _study_config self;
     _completed_trials :=
       _completed_trials self ++ algorithms.CompletedTrials.trials completed;
     _active_trials := algorithms.ActiveTrials.trials all_active |}.

Definition suggest (self : t) (count : option Z)
  : result (list (gmap string vz.ParameterValue)) :=
  match count with
  | None => Ok []
  | Some count =>
      let trial_ids :=
        vz.id <$> (_completed_trials self ++ _active_trials self) in
      do current_index <- py_max trial_ids;
      comprehension
        (fun i =>
           make_parameters (vz.search_space (_study_config self))
             (current_index + i))
        (range count)
  end.

(** A session of [update] calls, in call order. *)
Definition updates (self : t)
    (calls : list (algorithms.CompletedTrials.t * algorithms.ActiveTrials.t))
  : t :=
  foldl (fun self call => update self call.1 call.2) self calls.

End MyDesigner.

(** ** [CounterDesigner] *)

(** The notebook elides the rest of the class: the other attributes
    ([Rest], set up by [__init__]) and the code of [suggest] that computes
    the suggestions. They are the parameters of this section; the elided
    code reads the designer and its argument and may update the other
    attributes or raise, and [_counter] is assigned where the notebook
    shows it. *)
Module CounterDesigner.
Section CounterDesigner.

Context {Rest : Type}.

Record t : Type := {
  _counter : Z;
  rest : Rest;
}.

Context (init_rest : Rest).
Context (compute_suggestions :
           t → option Z → result (list vz.TrialSuggestion) * Rest).

Definition __init__ : t :=
  {| _counter := 0; rest := init_rest |}.

Definition suggest (self : t) (count : option Z)
  : result (list vz.TrialSuggestion) * t :=
  let '(r, rest') := compute_suggestions self count in
  match r with
  | Raise e => (Raise e, {| _counter := _counter self; rest := rest' |})
  | Ok suggestions =>
      (Ok suggestions,
       {| _counter := _counter self + len suggestions; rest := rest' |})
  end.

(** A session of [suggest] calls: what each call gave, and the designer
    afterwards. *)
Fixpoint session (self : t) (counts : list (option Z))
  : list (result (list vz.TrialSuggestion)) * t :=
  match counts with
  | [] => ([], self)
  | count :: counts =>
      let '(r, self) := suggest self count in
      let '(rs, self) := session self counts in
      (r :: rs, self)
  end.

(** The number of suggestions a session has made. *)
Definition suggested (rs : list (result (list vz.TrialSuggestion))) : Z :=
  foldr (fun r n => match r with Ok l => len l + n | Raise _ => n end) 0 rs.

End CounterDesigner.
Arguments t : clear implicits.
End CounterDesigner.

(** ** [CounterSerialDesigner] and [CounterPartialDesigner] *)

Module CounterSerialDesigner.

Record t : Type := { _counter : PyVal }.

Definition __init__ (counter : PyVal) : t := {| _counter := counter |}.

Definition recover (metadata : gmap string str) : result t :=
  do counter <- Metadata.getitem metadata "counter";
  Ok (__init__ (PyStr counter)).

Definition dump (self : t) : result (gmap string str) :=
  let metadata := Metadata.new in
  do counter <- py_str (_counter self);
  let metadata := Metadata.setitem metadata "counter" counter in
  Ok metadata.

End CounterSerialDesigner.

Module CounterPartialDesigner.

(** The class has no [__init__] of its own: [_counter] exists once [load]
    (or a caller) has set it. *)
Record t : Type := { _counter : option PyVal }.

Definition load (self : t) (metadata : gmap string str) : result t :=
  do counter <- Metadata.getitem metadata "counter";
  do counter <- py_int (PyStr counter);
  Ok {| _counter := Some (PyInt counter) |}.

Definition dump (self : t) : result (gmap string str) :=
  let metadata := Metadata.new in
  match _counter self with
  | None => Raise (AttributeError "_counter")
  | Some counter =>
      do counter <- py_str counter;
      let metadata := Metadata.setitem metadata "counter" counter in
      Ok metadata
  end.

End CounterPartialDesigner.

(** ** The Dockerfile *)

Module Dockerfile.

(** The instructions the file uses. A [RUN] holds the commands of its
    [&&] chain, each command as its words after shell quoting. *)
Inductive instruction : Type :=
| FROM (image : string)
| RUN (commands : list (list string))
| COPY (src dest : string).

Definition instructions : list instruction :=
  [ FROM "python:3.11.4-slim";
    RUN [ ["apt-get"; "update"];
          ["apt-get"; "install"; "-y"; "--no-install-recommends";
           "build-essential"; "wget"];
          ["apt-get"; "purge"; "-y"; "--auto-remove"];
          ["rm"; "-rf"; "/var/lib/apt/lists/*"] ];
    COPY "./" ".";
    RUN [ ["pip3"; "install"; "--no-cache-dir"; "-U"; "-r"; "requirements.txt"];
          ["pip3"; "install"; "--no-cache-dir"; "-U"; "-r";
           "requirements-jax.txt"];
          ["pip3"; "install"; "-U"; "google-vizier[jax]"] ];
    RUN [ ["./build_protos.sh"] ] ].

(** What a build leaves in the image, as far as the file decides it. *)
Record image : Type := {
  base : string;
  apt_packages : list string;
  copied : list (string * string);
  requirement_files : list string;
  pip_packages : list string;
  executed : list string;
}.

Definition is_option (word : string) : bool :=
  match word with
  | String a _ => Ascii.eqb a "-"
  | EmptyString => false
  end.

(** The arguments of [pip3 install]: [-r file] names a requirement file,
    other options are switches, the remaining words are packages. *)
Fixpoint pip_install (args : list string) (img : image) : image :=
  match args with
  | [] => img
  | a :: args' =>
      if String.eqb a "-r" then
        match args' with
        | file :: args'' =>
            pip_install args''
              {| base := base img; apt_packages := apt_packages img;
                 copied := copied img;
                 requirement_files := requirement_files img ++ [file];
                 pip_packages := pip_packages img;
                 executed := executed img |}
        | [] => img
        end
      else if is_option a then pip_install args' img
      else
        pip_install args'
          {| base := base img; apt_packages := apt_packages img;
             copied := copied img;
             requirement_files := requirement_files img;
             pip_packages := pip_packages img ++ [a];
             executed := executed img |}
  end.

Definition exec (command : list string) (img : image) : image :=
  match command with
  | [] => img
  | prog :: args =>
      if String.eqb prog "apt-get" then
        match args with
        | sub :: args' =>
            if String.eqb sub "install" then
              {| base := base img;
                 apt_packages :=
                   apt_packages img
                   ++ filter (fun w => is_option w = false) args';
                 copied := copied img;
                 requirement_files := requirement_files img;
                 pip_packages := pip_packages img;
                 executed := executed img |}
            else img
        | [] => img
        end
      else if String.eqb prog "pip3" then
        match args with
        | sub :: args' =>
            if String.eqb sub "install" then pip_install args' img else img
        | [] => img
        end
      else if String.eqb prog "rm" then img
      else
        {| base := base img; apt_packages := apt_packages img;
           copied := copied img;
           requirement_files := requirement_files img;
           pip_packages := pip_packages img;
           executed := executed img ++ [prog] |}
  end.

Definition step (img : image) (i : instruction) : image :=
  match i with
  | FROM image =>
      {| base := image; apt_packages := []; copied := [];
         requirement_files := []; pip_packages := []; executed := [] |}
  | RUN commands => foldl (fun img command => exec command img) img commands
  | COPY src dest =>
      {| base := base img; apt_packages := apt_packages img;
         copied := copied img ++ [(src, dest)];
         requirement_files := requirement_files img;
         pip_packages := pip_packages img;
         executed := executed img |}
  end.

(** A build starts at the [FROM] line. *)
Definition build (file : list instruction) : option image :=
  match file with
  | FROM image :: rest => Some (foldl step (step
      {| base := ""; apt_packages := []; copied := [];
         requirement_files := []; pip_packages := []; executed := [] |}
      (FROM image)) rest)
  | _ => None
  end.

(** [python:3.11.x-slim] *)
Definition python_3_11_slim (image : string) : bool :=
  String.prefix "python:3.11." image
  && String.eqb (substring (String.length image - 5) 5 image) "-slim".

End Dockerfile.

(** ** Vocabulary of the statements *)

(** The supporter answers [completed] and [active] to the two queries of
    [get_next_index] from the state [σ] on, however often it is asked: its
    trial data does not change, whatever else its calls change. *)
Definition Serves {Σ} (supporter : pythia.PolicySupporter Σ) (σ : Σ)
    (completed active : list vz.Trial) : Prop :=
  ∃ I : Σ → Prop,
    I σ
    ∧ ∀ s, I s →
        (pythia.GetTrials supporter vz.COMPLETED s).1 = completed
        ∧ I (pythia.GetTrials supporter vz.COMPLETED s).2
        ∧ (pythia.GetTrials supporter vz.ACTIVE s).1 = active
        ∧ I (pythia.GetTrials supporter vz.ACTIVE s).2.

(** The index [get_next_index] computes from the two answers. *)
Definition next_index (completed active : list vz.Trial) : Z :=
  match vz.id <$> (completed ++ active) with
  | [] => 0
  | x :: l => foldl Z.max x l
  end.

#[global] Instance TrialStatus_eq_dec : EqDecision vz.TrialStatus.
Proof. solve_decision. Defined.

(** A supporter that answers from a list of trials held in memory. *)
Definition in_ram_supporter : pythia.PolicySupporter (list vz.Trial) :=
  {| pythia.GetTrials status_matches σ :=
       (filter (fun t => vz.status t = status_matches) σ, σ) |}.

(** The same, counting the calls it serves. *)
Definition counting_supporter : pythia.PolicySupporter (list vz.Trial * nat) :=
  {| pythia.GetTrials status_matches σ :=
       (filter (fun t => vz.status t = status_matches) σ.1, (σ.1, S σ.2)) |}.

Definition trial (id : Z) (status : vz.TrialStatus) : vz.Trial :=
  {| vz.id := id; vz.status := status;
     vz.trial_parameters := ∅; vz.trial_metadata := ∅ |}.

(** A search space of two CATEGORICAL parameters, used to run the
    statements. *)
Definition colours_and_sizes : vz.SearchSpace :=
  {| vz.parameters :=
       [ {| vz.name := "colour"; vz.type := vz.CATEGORICAL;
            vz.feasible_values := [vz.VStr "red"; vz.VStr "green"; vz.VStr "blue"] |};
         {| vz.name := "size"; vz.type := vz.CATEGORICAL;
            vz.feasible_values := [vz.VStr "s"; vz.VStr "m"] |} ] |}.

(** What [MyPolicy.suggest] comes to when the supporter keeps answering
    [completed] and [active]. *)
Definition suggest_outcome (request : pythia.SuggestRequest)
    (completed active : list vz.Trial) : result pythia.SuggestDecision :=
  do suggest_decision_list <-
    match range (pythia.count request) with
    | [] => Ok []
    | _ :: _ =>
        do parameters <-
          make_parameters (vz.search_space (pythia.study_config request))
            (next_index completed active);
        Ok (replicate (Z.to_nat (pythia.count request))
              {| vz.suggestion_parameters := parameters |})
    end;
  Ok {| pythia.suggestions := suggest_decision_list;
        pythia.metadata := MetadataDelta_new |}.

(** Requests, trials and a designer used to run the statements. *)
Definition two_trials : list vz.Trial :=
  [trial 3 vz.COMPLETED; trial 5 vz.ACTIVE].

Definition colours_request (count : Z) : pythia.SuggestRequest :=
  {| pythia.study_config := {| vz.search_space := colours_and_sizes |};
     pythia.count := count |}.

Definition rate_request (count : Z) : pythia.SuggestRequest :=
  {| pythia.study_config :=
       {| vz.search_space :=
            {| vz.parameters :=
                 [ {| vz.name := "rate"; vz.type := vz.DOUBLE;
                      vz.feasible_values := [] |} ] |} |};
     pythia.count := count |}.

Definition rate_designer : MyDesigner.t :=
  MyDesigner.update
    (MyDesigner.__init__ (pythia.study_config (rate_request 1)))
    {| algorithms.CompletedTrials.trials := [trial 3 vz.COMPLETED] |}
    {| algorithms.ActiveTrials.trials := [trial 5 vz.ACTIVE] |}.

Definition rate : vz.ParameterConfig :=
  {| vz.name := "rate"; vz.type := vz.DOUBLE; vz.feasible_values := [] |}.

Definition colours_then_rate : vz.SearchSpace :=
  {| vz.parameters := vz.parameters colours_and_sizes ++ [rate] |}.

Definition colours_designer : MyDesigner.t :=
  MyDesigner.update
    (MyDesigner.__init__ {| vz.search_space := colours_and_sizes |})
    {| algorithms.CompletedTrials.trials := [trial 3 vz.COMPLETED] |}
    {| algorithms.ActiveTrials.trials := [trial 5 vz.ACTIVE] |}.

(** The world after the two queries of one [get_next_index] call:
    COMPLETED first, then ACTIVE. *)
Definition queried {Σ} (supporter : pythia.PolicySupporter Σ) (σ : Σ) : Σ :=
  (pythia.GetTrials supporter vz.ACTIVE
     (pythia.GetTrials supporter vz.COMPLETED σ).2).2.

(** * Theorems *)

(** ** [make_parameters] *)

(** The first parameter config ends the loop: the comparison of its type
    looks up [vz.ParamterType]. *)
Lemma make_parameters_loop_cons pc ps i d :
  make_parameters_loop (pc :: ps) i d = Raise (AttributeError "ParamterType").
Proof. reflexivity. Qed.

Lemma make_parameters_outcome (search_space : vz.SearchSpace) (i : Z) :
  make_parameters search_space i
  = match vz.parameters search_space with
    | [] => Ok ∅
    | _ :: _ => Raise (AttributeError "ParamterType")
    end.
Proof. unfold make_parameters. by destruct (vz.parameters search_space). Qed.

(** C1 (what the code does). On a search space of CATEGORICAL parameter
    configs with feasible values, as on every search space with at least
    one parameter config, [make_parameters] returns no parameter dict: the
    lookup of the misspelled [vz.ParamterType] raises an [AttributeError]
    at the first config, for every index. Only the search space without
    parameters gets a dict, the empty one. *)
Theorem make_parameters_AttributeError :
  make_parameters colours_and_sizes 4 = Raise (AttributeError "ParamterType")
  ∧ (∀ pc ps i,
       make_parameters {| vz.parameters := pc :: ps |} i
       = Raise (AttributeError "ParamterType"))
  ∧ ∀ i, make_parameters {| vz.parameters := [] |} i = Ok ∅.
Proof. by repeat split. Qed.

(** C2 (what the code does). [make_parameters] never raises a
    [ValueError]: on a search space with a parameter config that is not
    CATEGORICAL, as on every search space with at least one config, the
    [AttributeError] of the misspelled [vz.ParamterType] comes before the
    [raise ValueError] of the loop. *)
Theorem make_parameters_no_ValueError :
  make_parameters {| vz.parameters := [rate] |} 0
  = Raise (AttributeError "ParamterType")
  ∧ make_parameters colours_then_rate 4 = Raise (AttributeError "ParamterType")
  ∧ ∀ search_space i msg,
      make_parameters search_space i ≠ Raise (ValueError msg).
Proof.
  split; [done|]. split; [done|]. intros search_space i msg.
  rewrite make_parameters_outcome. by destruct (vz.parameters search_space).
Qed.

(** ** [MyPolicy] *)

Section MyPolicy_facts.

Context {Σ : Type} (self : MyPolicy.t Σ).
Context (completed active : list vz.Trial) (I : Σ → Prop).
Notation supporter := (MyPolicy._policy_supporter self).
Hypothesis I_closed : ∀ s, I s →
  (pythia.GetTrials supporter vz.COMPLETED s).1 = completed
  ∧ I (pythia.GetTrials supporter vz.COMPLETED s).2
  ∧ (pythia.GetTrials supporter vz.ACTIVE s).1 = active
  ∧ I (pythia.GetTrials supporter vz.ACTIVE s).2.

Lemma get_next_index_stable s :
  I s → ∃ s', get_next_index supporter s = (Ok (next_index completed active), s') ∧ I s'.
Proof.
  intros Hs. unfold get_next_index, next_index.
  destruct (I_closed s Hs) as (Hc & Hs1 & _).
  destruct (pythia.GetTrials supporter vz.COMPLETED s) as [c s1].
  simpl in Hc, Hs1. subst c.
  destruct (I_closed s1 Hs1) as (_ & _ & Ha & Hs2).
  destruct (pythia.GetTrials supporter vz.ACTIVE s1) as [a s2].
  simpl in Ha, Hs2. subst a.
  exists s2. split; [|done].
  by destruct (vz.id <$> completed ++ active).
Qed.

(** The loop of [suggest] under a stable supporter: every iteration reads
    the same index, so it appends the same suggestion or raises at once. *)
Lemma suggest_loop_stable iterations request acc s :
  I s →
  ∃ s', I s'
    ∧ MyPolicy.suggest_loop iterations request acc (self, s)
      = (match iterations with
         | [] => Ok acc
         | _ :: _ =>
             do parameters <-
               make_parameters (vz.search_space (pythia.study_config request))
                 (next_index completed active);
             Ok (acc ++ replicate (length iterations)
                          {| vz.suggestion_parameters := parameters |})
         end, (self, s')).
Proof.
  revert acc s. induction iterations as [|i iterations IH]; intros acc s Hs.
  { by exists s. }
  cbn [MyPolicy.suggest_loop].
  destruct (get_next_index_stable s Hs) as (s1 & -> & Hs1).
  cbn [bind].
  destruct (make_parameters _ _) as [parameters|e] eqn:Hmp.
  - destruct (IH (acc ++ [{| vz.suggestion_parameters := parameters |}]) s1 Hs1)
      as (s' & Hs' & ->).
    exists s'. split; [done|]. f_equal.
    destruct iterations; cbn [bind length replicate]; [done|].
    by rewrite <-app_assoc.
  - by exists s1.
Qed.

End MyPolicy_facts.

Lemma length_range n : length (range n) = Z.to_nat n.
Proof. unfold range. by rewrite length_fmap, length_seq. Qed.

Lemma suggest_stable {Σ} (self : MyPolicy.t Σ) (σ : Σ) request completed active :
  Serves (MyPolicy._policy_supporter self) σ completed active →
  ∃ σ', Serves (MyPolicy._policy_supporter self) σ' completed active
      ∧ MyPolicy.suggest request (self, σ)
        = (suggest_outcome request completed active, (self, σ')).
Proof.
  intros (I & Hσ & HI). unfold MyPolicy.suggest, suggest_outcome.
  destruct (suggest_loop_stable self completed active I HI
              (range (pythia.count request)) request [] σ Hσ) as (σ' & Hσ' & ->).
  exists σ'. split; [by exists I|].
  rewrite <-length_range. by destruct (range (pythia.count request)).
Qed.

Lemma Serves_in_ram σ :
  Serves in_ram_supporter σ
    (filter (fun t => vz.status t = vz.COMPLETED) σ)
    (filter (fun t => vz.status t = vz.ACTIVE) σ).
Proof. exists (fun s => s = σ). split; [done|]. by intros s ->. Defined.

Lemma Serves_counting σ calls :
  Serves counting_supporter (σ, calls)
    (filter (fun t => vz.status t = vz.COMPLETED) σ)
    (filter (fun t => vz.status t = vz.ACTIVE) σ).
Proof. exists (fun s => s.1 = σ). split; [done|]. by intros [s n] [= ->]. Defined.

Lemma suggest_loop_self {Σ} iterations request acc (self : MyPolicy.t Σ) (σ : Σ) :
  (MyPolicy.suggest_loop iterations request acc (self, σ)).2.1 = self.
Proof.
  revert acc σ. induction iterations as [|i iterations IH]; intros acc σ; [done|].
  cbn [MyPolicy.suggest_loop].
  destruct (get_next_index (MyPolicy._policy_supporter self) σ) as [r σ1].
  destruct (bind r _) as [parameters|e]; [apply IH | done].
Qed.

(** C3. [MyPolicy.suggest] leaves the instance as it found it, and what it
    gives depends only on the request and on the completed and active
    trials its supporter answers: two instances whose supporters answer the
    same trials give, on the same request, the same outcome (the same
    [SuggestDecision], or the same exception). *)
Theorem MyPolicy_stateless :
  (∀ Σ (policy : MyPolicy.t Σ) (σ : Σ) request,
     (MyPolicy.suggest request (policy, σ)).2.1 = policy)
  ∧ ∀ Σ1 Σ2 (policy1 : MyPolicy.t Σ1) (σ1 : Σ1)
      (policy2 : MyPolicy.t Σ2) (σ2 : Σ2) request completed active,
      Serves (MyPolicy._policy_supporter policy1) σ1 completed active →
      Serves (MyPolicy._policy_supporter policy2) σ2 completed active →
      (MyPolicy.suggest request (policy1, σ1)).1
      = (MyPolicy.suggest request (policy2, σ2)).1.
Proof.
  split.
  - intros Σ policy σ request. unfold MyPolicy.suggest.
    pose proof (suggest_loop_self (range (pythia.count request)) request []
                  policy σ) as Hself.
    by destruct (MyPolicy.suggest_loop _ _ _ _) as [r [policy' σ']].
  - intros Σ1 Σ2 policy1 σ1 policy2 σ2 request completed active H1 H2.
    destruct (suggest_stable policy1 σ1 request _ _ H1) as (σ1' & _ & ->).
    destruct (suggest_stable policy2 σ2 request _ _ H2) as (σ2' & _ & ->).
    done.
Qed.

Lemma MyPolicy_stateless_witness :
  (MyPolicy.suggest (colours_request 2)
     (MyPolicy.__init__ in_ram_supporter, two_trials)).1
  = (MyPolicy.suggest (colours_request 2)
       (MyPolicy.__init__ counting_supporter,
        (two_trials ++ [trial 9 vz.REQUESTED], 0%nat))).1.
Proof.
  destruct MyPolicy_stateless as [_ Hsame].
  apply (Hsame _ _
           (MyPolicy.__init__ in_ram_supporter) two_trials
           (MyPolicy.__init__ counting_supporter)
           (two_trials ++ [trial 9 vz.REQUESTED], 0%nat)
           (colours_request 2)
           [trial 3 vz.COMPLETED] [trial 5 vz.ACTIVE]).
  - exact (Serves_in_ram two_trials).
  - exact (Serves_counting (two_trials ++ [trial 9 vz.REQUESTED]) 0).
Defined.

Example MyPolicy_suggest_colours :
  (MyPolicy.suggest (colours_request 2)
     (MyPolicy.__init__ in_ram_supporter, two_trials)).1
  = Raise (AttributeError "ParamterType").
Proof. reflexivity. Qed.

Lemma range_nonpositive n : n <= 0 → range n = [].
Proof. intros Hn. unfold range. by replace (Z.to_nat n) with 0%nat by lia. Qed.

Lemma range_positive n : 0 < n → ∃ l, range n = 0 :: l.
Proof.
  intros Hn. unfold range.
  destruct (Z.to_nat n) as [|k] eqn:Hk; [lia|]. by eexists.
Qed.

(** C10 (as amended). For every request with count [n] and every supporter
    whose trial data does not change during the call, every iteration of
    [MyPolicy.suggest] gets the same index from [get_next_index] and makes
    the same call of [make_parameters]: when that call returns parameters,
    the decision holds exactly [n] suggestions, all carrying them; when it
    raises and [n >= 1], [suggest] raises the same exception and returns no
    decision; for [n <= 0] the decision is empty. *)
Theorem MyPolicy_suggest_identical {Σ} (self : MyPolicy.t Σ) (σ : Σ)
    (request : pythia.SuggestRequest) (completed active : list vz.Trial) :
  Serves (MyPolicy._policy_supporter self) σ completed active →
  (∀ parameters,
     make_parameters (vz.search_space (pythia.study_config request))
       (next_index completed active) = Ok parameters →
     (MyPolicy.suggest request (self, σ)).1
     = Ok {| pythia.suggestions :=
               replicate (Z.to_nat (pythia.count request))
                 {| vz.suggestion_parameters := parameters |};
             pythia.metadata := MetadataDelta_new |})
  ∧ (∀ e,
       make_parameters (vz.search_space (pythia.study_config request))
         (next_index completed active) = Raise e →
       0 < pythia.count request →
       (MyPolicy.suggest request (self, σ)).1 = Raise e)
  ∧ (pythia.count request <= 0 →
     (MyPolicy.suggest request (self, σ)).1
     = Ok {| pythia.suggestions := []; pythia.metadata := MetadataDelta_new |}).
Proof.
  intros Hserves.
  destruct (suggest_stable self σ request _ _ Hserves) as (σ' & _ & ->).
  unfold suggest_outcome. cbn [fst]. split; [|split].
  - intros parameters ->. cbn [bind].
    destruct (range (pythia.count request)) eqn:Hrange; [|done].
    apply (f_equal length) in Hrange. rewrite length_range in Hrange.
    cbn [length] in Hrange. by rewrite Hrange.
  - intros e -> Hcount. by destruct (range_positive _ Hcount) as [l ->].
  - intros Hcount. by rewrite range_nonpositive.
Qed.

Lemma MyPolicy_suggest_identical_witness :
  (∀ parameters,
     make_parameters (vz.search_space (pythia.study_config (colours_request 3)))
       (next_index [trial 3 vz.COMPLETED] [trial 5 vz.ACTIVE]) = Ok parameters →
     (MyPolicy.suggest (colours_request 3)
        (MyPolicy.__init__ counting_supporter, (two_trials, 0%nat))).1
     = Ok {| pythia.suggestions :=
               replicate (Z.to_nat (pythia.count (colours_request 3)))
                 {| vz.suggestion_parameters := parameters |};
             pythia.metadata := MetadataDelta_new |})
  ∧ (∀ e,
       make_parameters (vz.search_space (pythia.study_config (colours_request 3)))
         (next_index [trial 3 vz.COMPLETED] [trial 5 vz.ACTIVE]) = Raise e →
       0 < pythia.count (colours_request 3) →
       (MyPolicy.suggest (colours_request 3)
          (MyPolicy.__init__ counting_supporter, (two_trials, 0%nat))).1
       = Raise e)
  ∧ (pythia.count (colours_request 3) <= 0 →
     (MyPolicy.suggest (colours_request 3)
        (MyPolicy.__init__ counting_supporter, (two_trials, 0%nat))).1
     = Ok {| pythia.suggestions := []; pythia.metadata := MetadataDelta_new |}).
Proof.
  apply (MyPolicy_suggest_identical
           (MyPolicy.__init__ counting_supporter) (two_trials, 0%nat)
           (colours_request 3) [trial 3 vz.COMPLETED] [trial 5 vz.ACTIVE]).
  exact (Serves_counting two_trials 0).
Defined.

(** A search space without parameters is the one [make_parameters] serves:
    the decision then holds [count] suggestions with the same, empty,
    parameters. *)
Example MyPolicy_suggest_no_parameters :
  (MyPolicy.suggest
     {| pythia.study_config := {| vz.search_space := {| vz.parameters := [] |} |};
        pythia.count := 3 |}
     (MyPolicy.__init__ in_ram_supporter, two_trials)).1
  = Ok {| pythia.suggestions := replicate 3 {| vz.suggestion_parameters := ∅ |};
          pythia.metadata := MetadataDelta_new |}.
Proof. reflexivity. Qed.

(** C10 as written fails on a request whose search space has a parameter
    that is not CATEGORICAL: with a supporter that never changes, a request
    for one suggestion gets an exception and no decision. *)
Lemma MyPolicy_suggest_no_decision :
  Serves in_ram_supporter two_trials [trial 3 vz.COMPLETED] [trial 5 vz.ACTIVE]
  ∧ (MyPolicy.suggest (rate_request 1)
       (MyPolicy.__init__ in_ram_supporter, two_trials)).1
    = Raise (AttributeError "ParamterType").
Proof. split; [exact (Serves_in_ram two_trials) | reflexivity]. Qed.

(** ** [MyDesigner] *)

Import algorithms.

Lemma updates_completed self calls :
  MyDesigner._completed_trials (MyDesigner.updates self calls)
  = MyDesigner._completed_trials self
    ++ concat ((fun call => CompletedTrials.trials call.1) <$> calls).
Proof.
  revert self. induction calls as [|call calls IH]; intros self.
  - simpl. by rewrite app_nil_r.
  - unfold MyDesigner.updates in *. cbn [foldl fmap list_fmap concat].
    rewrite IH. cbn [MyDesigner.update MyDesigner._completed_trials].
    by rewrite <-app_assoc.
Qed.

Lemma updates_active self calls :
  MyDesigner._active_trials (MyDesigner.updates self calls)
  = match last calls with
    | Some call => ActiveTrials.trials call.2
    | None => MyDesigner._active_trials self
    end.
Proof.
  revert self. induction calls as [|call calls IH]; intros self; [done|].
  unfold MyDesigner.updates in *. cbn [foldl]. rewrite IH.
  destruct calls as [|call' calls]; [done|]. rewrite last_cons_cons.
  destruct (last (call' :: calls)) eqn:Hlast; [done|].
  by apply last_None in Hlast.
Qed.

(** C5. Every [update] appends [completed.trials] to the stored completed
    trials, keeping the earlier ones, and replaces the stored active trials
    by [all_active.trials]; so after any sequence of updates of a new
    designer the completed list is the concatenation of all completed
    batches in call order and the active list is the most recent batch. *)
Theorem MyDesigner_update_accumulates :
  (∀ self completed all_active,
     MyDesigner._completed_trials (MyDesigner.update self completed all_active)
     = MyDesigner._completed_trials self ++ CompletedTrials.trials completed
     ∧ MyDesigner._active_trials (MyDesigner.update self completed all_active)
       = ActiveTrials.trials all_active)
  ∧ ∀ study_config calls,
      MyDesigner._completed_trials
        (MyDesigner.updates (MyDesigner.__init__ study_config) calls)
      = concat ((fun call => CompletedTrials.trials call.1) <$> calls)
      ∧ MyDesigner._active_trials
          (MyDesigner.updates (MyDesigner.__init__ study_config) calls)
        = match last calls with
          | Some call => ActiveTrials.trials call.2
          | None => []
          end.
Proof.
  split; [done|]. intros study_config calls.
  by rewrite updates_completed, updates_active.
Qed.

Example MyDesigner_three_updates :
  let d :=
    MyDesigner.updates (MyDesigner.__init__ {| vz.search_space := colours_and_sizes |})
      [ ({| CompletedTrials.trials := [trial 1 vz.COMPLETED] |},
         {| ActiveTrials.trials := [trial 2 vz.ACTIVE; trial 3 vz.ACTIVE] |});
        ({| CompletedTrials.trials := [] |},
         {| ActiveTrials.trials := [trial 2 vz.ACTIVE; trial 3 vz.ACTIVE] |});
        ({| CompletedTrials.trials := [trial 3 vz.COMPLETED; trial 2 vz.COMPLETED] |},
         {| ActiveTrials.trials := [trial 4 vz.ACTIVE] |}) ] in
  MyDesigner._completed_trials d
  = [trial 1 vz.COMPLETED; trial 3 vz.COMPLETED; trial 2 vz.COMPLETED]
  ∧ MyDesigner._active_trials d = [trial 4 vz.ACTIVE].
Proof. split; reflexivity. Qed.

Lemma foldl_max_ge x l : x <= foldl Z.max x l ∧ Forall (fun y => y <= foldl Z.max x l) l.
Proof.
  revert x. induction l as [|y l IH]; intros x; [by split|].
  cbn [foldl]. destruct (IH (Z.max x y)) as [Hx Hl].
  split; [lia|]. constructor; [lia|done].
Qed.

Lemma foldl_max_elem x l : foldl Z.max x l ∈ x :: l.
Proof.
  revert x. induction l as [|y l IH]; intros x; [set_solver|].
  cbn [foldl]. specialize (IH (Z.max x y)).
  apply elem_of_cons in IH as [->|IH]; [|set_solver].
  destruct (Z.max_spec x y) as [[_ ->]|[_ ->]]; set_solver.
Qed.

Lemma py_max_spec l :
  l ≠ [] →
  ∃ m, py_max l = Ok m ∧ m ∈ l ∧ Forall (fun y => y <= m) l.
Proof.
  destruct l as [|x l]; [done|]. intros _. exists (foldl Z.max x l).
  split; [done|]. split; [apply foldl_max_elem|].
  destruct (foldl_max_ge x l). by constructor.
Qed.

Lemma comprehension_Raise {A B} (f : A → result B) e i items :
  f i = Raise e → comprehension f (i :: items) = Raise e.
Proof. intros Hf. cbn [comprehension]. by rewrite Hf. Qed.

Lemma comprehension_Forall2 {A B} (f : A → result B) items l :
  comprehension f items = Ok l ↔ Forall2 (fun i x => f i = Ok x) items l.
Proof.
  revert l. induction items as [|i items IH]; intros l.
  { cbn [comprehension]. split.
    - intros [= <-]. constructor.
    - intros Hl. by apply Forall2_nil_inv_l in Hl as ->. }
  cbn [comprehension]. split.
  - destruct (f i) as [x|e] eqn:Hf; [|done]. cbn [bind].
    destruct (comprehension f items) as [xs|e] eqn:Hxs; [|done]. cbn [bind].
    intros [= <-]. constructor; [done|]. by apply IH.
  - intros Hl. apply Forall2_cons_inv_l in Hl as (x & xs & Hx & Hxs & ->).
    rewrite Hx. cbn [bind]. apply IH in Hxs. by rewrite Hxs.
Qed.

Lemma comprehension_Raise_iff {A B} (f : A → result B) items e :
  comprehension f items = Raise e
  ↔ ∃ pre i post,
      items = pre ++ i :: post
      ∧ Forall (fun j => ∃ x, f j = Ok x) pre
      ∧ f i = Raise e.
Proof.
  induction items as [|i items IH].
  { split; [done|]. intros (pre & j & post & Hnil & _). by destruct pre. }
  cbn [comprehension]. split.
  - destruct (f i) as [x|e'] eqn:Hf; cbn [bind].
    + destruct (comprehension f items) as [xs|e'] eqn:Hxs; cbn [bind]; [done|].
      intros [= ->]. destruct (proj1 IH eq_refl) as (pre & j & post & -> & Hpre & Hj).
      exists (i :: pre), j, post. repeat split; [|done].
      constructor; [by exists x|done].
    + intros [= ->]. by exists [], i, items.
  - intros (pre & j & post & Hsplit & Hpre & Hj).
    destruct pre as [|i' pre].
    + injection Hsplit as -> ->. by rewrite Hj.
    + injection Hsplit as -> ->.
      apply Forall_cons in Hpre as [[x Hx] Hpre]. rewrite Hx. cbn [bind].
      assert (comprehension f (pre ++ j :: post) = Raise e) as ->; [|done].
      apply IH. by exists pre, j, post.
Qed.

(** C9 (as amended). [MyDesigner.suggest(None)] returns the empty sequence
    in every state. [suggest(n)] for an integer [n] raises when both stored
    trial lists are empty (as they are after [__init__]): the max over no
    trial id has no value. When a trial is stored, it calls
    [make_parameters] at [current_index + 0], ..., [current_index + n - 1]
    in this order, [current_index] being the largest stored trial id: it
    returns exactly the [n] dicts of these calls (none when [n <= 0]) when
    each of them returns, and otherwise raises the exception of the first
    call that raises. [get_next_index] instead yields 0 when the supporter
    has no trials. *)
Theorem MyDesigner_suggest_total :
  (∀ self, MyDesigner.suggest self None = Ok [])
  ∧ (∀ self n,
       MyDesigner._completed_trials self = [] →
       MyDesigner._active_trials self = [] →
       ∃ msg, MyDesigner.suggest self (Some n) = Raise (ValueError msg))
  ∧ (∀ study_config n,
       ∃ msg, MyDesigner.suggest (MyDesigner.__init__ study_config) (Some n)
              = Raise (ValueError msg))
  ∧ (∀ self n,
       MyDesigner._completed_trials self ++ MyDesigner._active_trials self ≠ [] →
       ∃ current_index,
         current_index
           ∈ vz.id <$> MyDesigner._completed_trials self
                       ++ MyDesigner._active_trials self
         ∧ Forall (fun t => vz.id t <= current_index)
             (MyDesigner._completed_trials self ++ MyDesigner._active_trials self)
         ∧ (∀ suggestions,
              MyDesigner.suggest self (Some n) = Ok suggestions
              ↔ Forall2
                  (fun i parameters =>
                     make_parameters
                       (vz.search_space (MyDesigner._study_config self))
                       (current_index + i) = Ok parameters)
                  (range n) suggestions)
         ∧ (∀ e,
              MyDesigner.suggest self (Some n) = Raise e
              ↔ ∃ pre i post,
                  range n = pre ++ i :: post
                  ∧ Forall
                      (fun j =>
                         ∃ parameters,
                           make_parameters
                             (vz.search_space (MyDesigner._study_config self))
                             (current_index + j) = Ok parameters)
                      pre
                  ∧ make_parameters
                      (vz.search_space (MyDesigner._study_config self))
                      (current_index + i) = Raise e)
         ∧ (∀ suggestions,
              MyDesigner.suggest self (Some n) = Ok suggestions →
              length suggestions = Z.to_nat n))
  ∧ (∀ Σ (supporter : pythia.PolicySupporter Σ) σ,
       Serves supporter σ [] [] → (get_next_index supporter σ).1 = Ok 0).
Proof.
  split; [done|]. split; [|split; [|split]].
  - intros self n Hc Ha. unfold MyDesigner.suggest. rewrite Hc, Ha. by eexists.
  - intros study_config n. by eexists.
  - intros self n Hstored.
    destruct (py_max_spec
                (vz.id <$> MyDesigner._completed_trials self
                           ++ MyDesigner._active_trials self))
      as (m & Hmax & Helem & Hge).
    { intros Hnil. by apply fmap_nil_inv in Hnil. }
    exists m. split; [done|]. split.
    { apply Forall_forall. intros t Ht. rewrite Forall_forall in Hge.
      apply Hge. by apply list_elem_of_fmap_2. }
    unfold MyDesigner.suggest. rewrite Hmax. cbn [bind].
    split; [|split].
    + intros suggestions. apply comprehension_Forall2.
    + intros e. apply comprehension_Raise_iff.
    + intros suggestions Hok. apply comprehension_Forall2 in Hok.
      apply Forall2_length in Hok. by rewrite <-Hok, length_range.
  - intros Σ supporter σ (I & Hσ & HI).
    destruct (get_next_index_stable (MyPolicy.__init__ supporter) [] [] I HI σ Hσ)
      as (s' & Heq & _).
    cbn [MyPolicy.__init__ MyPolicy._policy_supporter] in Heq. by rewrite Heq.
Qed.

(** C9 as written fails on a designer that has trials recorded but whose
    search space has a parameter that is not CATEGORICAL: [suggest(1)]
    raises and returns nothing. *)
Lemma MyDesigner_suggest_unsupported :
  MyDesigner._completed_trials rate_designer ++ MyDesigner._active_trials rate_designer
    ≠ []
  ∧ MyDesigner.suggest rate_designer (Some 1)
    = Raise (AttributeError "ParamterType").
Proof. split; [done | reflexivity]. Qed.

Lemma MyDesigner_suggest_total_witness :
  ∃ current_index,
    current_index
      ∈ vz.id <$> MyDesigner._completed_trials colours_designer
                  ++ MyDesigner._active_trials colours_designer
    ∧ Forall (fun t => vz.id t <= current_index)
        (MyDesigner._completed_trials colours_designer
         ++ MyDesigner._active_trials colours_designer)
    ∧ (∀ suggestions,
         MyDesigner.suggest colours_designer (Some 2) = Ok suggestions
         ↔ Forall2
             (fun i parameters =>
                make_parameters
                  (vz.search_space (MyDesigner._study_config colours_designer))
                  (current_index + i) = Ok parameters)
             (range 2) suggestions)
    ∧ (∀ e,
         MyDesigner.suggest colours_designer (Some 2) = Raise e
         ↔ ∃ pre i post,
             range 2 = pre ++ i :: post
             ∧ Forall
                 (fun j =>
                    ∃ parameters,
                      make_parameters
                        (vz.search_space (MyDesigner._study_config colours_designer))
                        (current_index + j) = Ok parameters)
                 pre
             ∧ make_parameters
                 (vz.search_space (MyDesigner._study_config colours_designer))
                 (current_index + i) = Raise e)
    ∧ (∀ suggestions,
         MyDesigner.suggest colours_designer (Some 2) = Ok suggestions →
         length suggestions = Z.to_nat 2).
Proof.
  destruct MyDesigner_suggest_total as (_ & _ & _ & Hsuggest & _).
  apply (Hsuggest colours_designer 2). discriminate.
Defined.

Example MyDesigner_suggest_colours :
  MyDesigner.suggest colours_designer (Some 2)
  = Raise (AttributeError "ParamterType")
  ∧ MyDesigner.suggest
      (MyDesigner.update
         (MyDesigner.__init__ {| vz.search_space := {| vz.parameters := [] |} |})
         {| CompletedTrials.trials := [trial 3 vz.COMPLETED] |}
         {| ActiveTrials.trials := [] |})
      (Some 2)
    = Ok [∅; ∅].
Proof. split; reflexivity. Qed.

(** ** [str] and [int] *)

Lemma ascii_digit_plain c :
  ascii_digit c = true →
  to_ascii c = c ∧ ascii_space c = false
  ∧ (c =? 43)%N = false ∧ (c =? 45)%N = false ∧ (c =? 95)%N = false.
Proof.
  unfold ascii_digit, to_ascii, ascii_space.
  intros [H1%N.leb_le H2%N.leb_le]%andb_true_iff.
  repeat split.
  - destruct (N.ltb_spec c 127); [done|lia].
  - destruct (N.leb_spec 9 c), (N.leb_spec c 13), (N.eqb_spec c 32);
      simpl; try done; lia.
  - apply N.eqb_neq. lia.
  - apply N.eqb_neq. lia.
  - apply N.eqb_neq. lia.
Qed.

Lemma codepoints_of_uint_digits u : Forall (fun c => ascii_digit c = true) (codepoints_of_uint u).
Proof. induction u; cbn [codepoints_of_uint]; by constructor. Qed.

Lemma to_ascii_digits l :
  Forall (fun c => ascii_digit c = true) l → to_ascii <$> l = l.
Proof.
  induction 1 as [|c l Hc _ IH]; [done|].
  cbn [fmap list_fmap]. f_equal; [by apply ascii_digit_plain|exact IH].
Qed.

Lemma codepoints_of_uint_head u :
  u ≠ Nil →
  ∃ c l, codepoints_of_uint u = c :: l ∧ ascii_digit c = true.
Proof. destruct u; [done|..]; intros _; by eexists _, _. Qed.

Lemma scan_codepoints_of_uint u :
  scan (codepoints_of_uint u) false = Some (u, (false, [])).
Proof.
  induction u; [done|..]; cbn [codepoints_of_uint];
    (change (scan (?c :: ?l) false)
       with (match scan l false with
             | Some (u', r) => Some (cons_digit c u', r)
             | None => None
             end)); by rewrite IHu.
Qed.

(** [int] reads back the digits of a number that is within the limit. *)
Lemma py_int_digits u :
  u ≠ Nil → (nb_digits u ≤ int_max_str_digits)%nat →
  py_int (PyStr (codepoints_of_uint u)) = Ok (Z.of_uint u)
  ∧ py_int (PyStr (45%N :: codepoints_of_uint u)) = Ok (- Z.of_uint u).
Proof.
  intros Hu Hlimit.
  pose proof (to_ascii_digits _ (codepoints_of_uint_digits u)) as Hascii.
  destruct (codepoints_of_uint_head u Hu) as (c & l & Hcl & Hc).
  destruct (ascii_digit_plain c Hc) as (_ & Hspace & Hplus & Hminus & Hunder).
  assert ((int_max_str_digits <? nb_digits u)%nat = false) as Hlt
    by (apply Nat.ltb_ge; lia).
  split; unfold py_int; cbv zeta.
  - rewrite Hascii, Hcl. cbn [lstrip]. rewrite Hspace, Hplus, Hminus, Hunder.
    rewrite <-Hcl, scan_codepoints_of_uint, Hlt. by destruct u.
  - cbn [fmap list_fmap]. rewrite Hascii.
    change (to_ascii 45) with 45%N. cbn [lstrip].
    change (ascii_space 45) with false. cbv iota.
    change (45 =? 43)%N with false. change (45 =? 45)%N with true. cbv iota.
    rewrite Hcl, Hunder. rewrite <-Hcl, scan_codepoints_of_uint, Hlt.
    by destruct u.
Qed.

Lemma py_int_decimal (c : Z) :
  (decimal_digits c ≤ int_max_str_digits)%nat →
  py_int (PyStr (decimal c)) = Ok c.
Proof.
  unfold decimal, decimal_digits.
  destruct c as [|p|p]; [reflexivity|..]; cbn [Z.to_int]; intros Hlimit;
    pose proof (DecimalPos.Unsigned.to_uint_nonnil p) as Hp;
    destruct (py_int_digits (Pos.to_uint p) Hp Hlimit) as [Hpos Hneg].
  - pose proof (DecimalZ.of_to (Z.pos p)) as Hz. cbn [Z.to_int Z.of_int] in Hz.
    by rewrite Hpos, Hz.
  - pose proof (DecimalZ.of_to (Z.neg p)) as Hz. cbn [Z.to_int Z.of_int] in Hz.
    by rewrite Hneg, Hz.
Qed.

Lemma py_str_int (c : Z) :
  (decimal_digits c ≤ int_max_str_digits)%nat →
  py_str (PyInt c) = Ok (decimal c).
Proof.
  intros Hlimit. unfold py_str.
  by replace (int_max_str_digits <? decimal_digits c)%nat with false
    by (symmetry; apply Nat.ltb_ge; lia).
Qed.

(** A number of [n] digits is below [10 ^ n]. *)
Lemma of_lu_bound d :
  (DecimalPos.Unsigned.of_lu d < 10 ^ N.of_nat (nb_digits d))%N.
Proof.
  induction d; cbn [DecimalPos.Unsigned.of_lu nb_digits];
    [done|..]; rewrite Nat2N.inj_succ, N.pow_succ_r'; lia.
Qed.

Lemma of_uint_bound u : Z.of_uint u < 10 ^ Z.of_nat (nb_digits u).
Proof.
  unfold Z.of_uint. rewrite DecimalPos.Unsigned.of_uint_alt.
  pose proof (of_lu_bound (Decimal.rev u)) as Hbound. rewrite nb_digits_rev in Hbound.
  apply N2Z.inj_lt in Hbound.
  rewrite N2Z.inj_pow, nat_N_Z in Hbound. exact Hbound.
Qed.

(** Beyond [10 ^ 4300] an int has more digits than the limit allows. *)
Lemma decimal_digits_large (c : Z) :
  10 ^ Z.of_nat int_max_str_digits <= Z.abs c →
  (int_max_str_digits < decimal_digits c)%nat.
Proof.
  intros Hlarge. apply Nat.nle_gt. intros Hsmall.
  assert (Z.abs c < 10 ^ Z.of_nat (decimal_digits c)) as Hbound.
  { unfold decimal_digits. destruct c as [|p|p]; cbn [Z.to_int Z.abs].
    - apply Z.pow_pos_nonneg; lia.
    - pose proof (of_uint_bound (Pos.to_uint p)) as Hb.
      unfold Z.of_uint in Hb.
      by rewrite DecimalPos.Unsigned.of_to in Hb.
    - pose proof (of_uint_bound (Pos.to_uint p)) as Hb.
      unfold Z.of_uint in Hb.
      by rewrite DecimalPos.Unsigned.of_to in Hb. }
  assert (10 ^ Z.of_nat (decimal_digits c) <= 10 ^ Z.of_nat int_max_str_digits)
    by (apply Z.pow_le_mono_r; lia).
  lia.
Qed.

Lemma py_str_large (c : Z) :
  10 ^ Z.of_nat int_max_str_digits <= Z.abs c →
  py_str (PyInt c) = Raise (ValueError (IntMaxStrDigits None)).
Proof.
  intros Hlarge. unfold py_str.
  by replace (int_max_str_digits <? decimal_digits c)%nat with true
    by (symmetry; apply Nat.ltb_lt; by apply decimal_digits_large).
Qed.

(** The digits of the value of [u] are at most those of [u]: leading
    zeros go. *)
Lemma decimal_digits_of_uint u :
  u ≠ Nil →
  (decimal_digits (Z.of_uint u) ≤ nb_digits u)%nat
  ∧ (decimal_digits (- Z.of_uint u) ≤ nb_digits u)%nat.
Proof.
  intros Hu. pose proof (nb_digits_unorm u Hu) as Hunorm.
  rewrite <-DecimalPos.Unsigned.to_of in Hunorm.
  assert (0 < nb_digits u)%nat by (destruct u; [done|..]; cbn; lia).
  unfold decimal_digits, Z.of_uint.
  destruct (Pos.of_uint u) as [|p]; simpl in *; split; lia.
Qed.

(** What [int] returns is within the limit of [str]. *)
Lemma py_int_within_limit s c :
  py_int (PyStr s) = Ok c → (decimal_digits c ≤ int_max_str_digits)%nat.
Proof.
  unfold py_int. cbv zeta.
  destruct (match lstrip (to_ascii <$> s) with
            | [] => _ | c' :: r => _ end) as [negative l].
  destruct l as [|c' l']; [done|].
  destruct (c' =? 95)%N; [done|].
  destruct (scan (c' :: l') false) as [[u [prev_underscore rest]]|]; [|done].
  destruct prev_underscore; [done|].
  destruct (Nat.ltb_spec int_max_str_digits (nb_digits u)) as [|Hlimit]; [done|].
  assert (u = Nil ∨ u ≠ Nil) as [->|Hu] by (destruct u; first [by left|by right]);
    [done|].
  destruct (decimal_digits_of_uint u Hu) as [Hpos Hneg].
  destruct u; [done|..]; destruct (lstrip rest); try done;
    destruct negative; intros [= <-]; lia.
Qed.

(** ** The counter designers *)

(** C6. [_counter] is 0 after [__init__]; a call of [suggest] that returns
    a sequence of suggestions increases [_counter] by the length of that
    sequence (a call that raises leaves it as it was); so after any session
    [_counter] is the number of suggestions the designer has made. *)
Theorem CounterDesigner_counts_suggestions {Rest : Type} (init_rest : Rest)
    (compute_suggestions :
       CounterDesigner.t Rest → option Z → result (list vz.TrialSuggestion) * Rest) :
  CounterDesigner._counter (CounterDesigner.__init__ init_rest) = 0
  ∧ (∀ self count,
       CounterDesigner._counter
         (CounterDesigner.suggest compute_suggestions self count).2
       = CounterDesigner._counter self
         + match (CounterDesigner.suggest compute_suggestions self count).1 with
           | Ok suggestions => len suggestions
           | Raise _ => 0
           end)
  ∧ ∀ counts,
      CounterDesigner._counter
        (CounterDesigner.session compute_suggestions
           (CounterDesigner.__init__ init_rest) counts).2
      = CounterDesigner.suggested
          (CounterDesigner.session compute_suggestions
             (CounterDesigner.__init__ init_rest) counts).1.
Proof.
  assert (∀ self count,
            CounterDesigner._counter
              (CounterDesigner.suggest compute_suggestions self count).2
            = CounterDesigner._counter self
              + match (CounterDesigner.suggest compute_suggestions self count).1 with
                | Ok suggestions => len suggestions
                | Raise _ => 0
                end) as Hstep.
  { intros self count. unfold CounterDesigner.suggest.
    destruct (compute_suggestions self count) as [[suggestions|e] rest'];
      cbn [fst snd CounterDesigner._counter]; lia. }
  split; [done|]. split; [exact Hstep|].
  assert (∀ counts self,
            CounterDesigner._counter
              (CounterDesigner.session compute_suggestions self counts).2
            = CounterDesigner._counter self
              + CounterDesigner.suggested
                  (CounterDesigner.session compute_suggestions self counts).1)
    as Hsession.
  { induction counts as [|count counts IH]; intros self.
    - cbn. lia.
    - cbn [CounterDesigner.session]. specialize (Hstep self count).
      destruct (CounterDesigner.suggest compute_suggestions self count)
        as [r self1].
      specialize (IH self1).
      destruct (CounterDesigner.session compute_suggestions self1 counts)
        as [rs self2].
      cbn [fst snd] in *. rewrite IH, Hstep.
      unfold CounterDesigner.suggested. cbn [foldr]. destruct r; lia. }
  intros counts. rewrite Hsession. cbn. lia.
Qed.

Example CounterDesigner_session :
  let compute (self : CounterDesigner.t unit) (count : option Z) :=
    match count with
    | Some n =>
        (Ok (replicate (Z.to_nat n) {| vz.suggestion_parameters := ∅ |}), tt)
    | None => (Raise (ValueError "count is required"), tt)
    end in
  (CounterDesigner.session compute (CounterDesigner.__init__ tt)
     [Some 2; None; Some 3]).2
  = {| CounterDesigner._counter := 5; CounterDesigner.rest := tt |}.
Proof. reflexivity. Qed.

(** C4 (what the code does). [dump] stores [str(self._counter)] under
    ['counter'], and [recover] hands that string to the constructor as it
    is: for a designer built with the int [c], the recovered designer's
    [_counter] is the string of [c]'s digits, which is not the int [c]
    (and beyond the limit of 4300 digits [dump] raises): recovering the
    dump never gives the designer back. *)
Theorem CounterSerialDesigner_recover_keeps_str (c : Z) :
  let d := CounterSerialDesigner.__init__ (PyInt c) in
  ((decimal_digits c ≤ int_max_str_digits)%nat →
   ∃ metadata,
     CounterSerialDesigner.dump d = Ok metadata
     ∧ metadata !! "counter" = Some (decimal c)
     ∧ CounterSerialDesigner.recover metadata
       = Ok (CounterSerialDesigner.__init__ (PyStr (decimal c))))
  ∧ (do metadata <- CounterSerialDesigner.dump d;
     CounterSerialDesigner.recover metadata) ≠ Ok d.
Proof.
  cbv zeta. split.
  - intros Hlimit. unfold CounterSerialDesigner.dump.
    cbn [CounterSerialDesigner._counter CounterSerialDesigner.__init__].
    rewrite (py_str_int c Hlimit). cbn [bind]. eexists. split; [done|].
    split; [apply lookup_insert_eq|].
    unfold CounterSerialDesigner.recover, Metadata.getitem, Metadata.setitem.
    by rewrite lookup_insert_eq.
  - unfold CounterSerialDesigner.dump.
    cbn [CounterSerialDesigner._counter CounterSerialDesigner.__init__].
    destruct (py_str (PyInt c)) as [s|e]; cbn [bind]; [|done].
    unfold CounterSerialDesigner.recover, Metadata.getitem, Metadata.setitem.
    rewrite lookup_insert_eq. cbn [bind]. intros [=].
Qed.

Example CounterSerialDesigner_recover_5 :
  (do metadata <-
     CounterSerialDesigner.dump (CounterSerialDesigner.__init__ (PyInt 5));
   CounterSerialDesigner.recover metadata)
  = Ok {| CounterSerialDesigner._counter := PyStr (codepoints "5") |}.
Proof. vm_compute. reflexivity. Qed.

(** C7 (as amended). For every [CounterPartialDesigner] whose [_counter] is
    an integer [c] of at most 4300 decimal digits, [load] of its [dump] on
    any designer sets that designer's [_counter] to [c]. *)
Theorem CounterPartialDesigner_load_dump (c : Z) (self : CounterPartialDesigner.t) :
  (decimal_digits c ≤ int_max_str_digits)%nat →
  (do metadata <-
     CounterPartialDesigner.dump {| CounterPartialDesigner._counter := Some (PyInt c) |};
   CounterPartialDesigner.load self metadata)
  = Ok {| CounterPartialDesigner._counter := Some (PyInt c) |}.
Proof.
  intros Hlimit.
  cbn [CounterPartialDesigner.dump CounterPartialDesigner._counter].
  rewrite (py_str_int c Hlimit). cbn [bind].
  unfold CounterPartialDesigner.load, Metadata.getitem, Metadata.setitem.
  rewrite lookup_insert_eq. cbn [bind]. by rewrite py_int_decimal.
Qed.

Lemma CounterPartialDesigner_load_dump_witness :
  (do metadata <-
     CounterPartialDesigner.dump
       {| CounterPartialDesigner._counter := Some (PyInt (-12)) |};
   CounterPartialDesigner.load {| CounterPartialDesigner._counter := None |} metadata)
  = Ok {| CounterPartialDesigner._counter := Some (PyInt (-12)) |}.
Proof.
  apply (CounterPartialDesigner_load_dump (-12)
           {| CounterPartialDesigner._counter := None |}).
  vm_compute. lia.
Defined.

(** C7 as written fails beyond the limit of [str]: a designer whose counter
    is [10 ^ 4300], an int of 4301 digits, cannot be dumped, so nothing is
    loaded. *)
Lemma CounterPartialDesigner_dump_beyond_limit :
  (do metadata <-
     CounterPartialDesigner.dump
       {| CounterPartialDesigner._counter := Some (PyInt (10 ^ 4300)) |};
   CounterPartialDesigner.load {| CounterPartialDesigner._counter := None |} metadata)
  = Raise (ValueError (IntMaxStrDigits None)).
Proof.
  cbn [CounterPartialDesigner.dump CounterPartialDesigner._counter].
  rewrite py_str_large; [done|].
  change (Z.of_nat int_max_str_digits) with 4300.
  rewrite Z.abs_eq; [done|]. apply Z.pow_nonneg. lia.
Qed.

(** ** The Dockerfile *)

(** C8. The build starts from a Python 3.11 slim image, installs
    build-essential and wget with apt-get, copies the repository tree,
    pip-installs requirements.txt, requirements-jax.txt and google-vizier
    with the jax extra, and runs ./build_protos.sh, which is the last
    instruction of the file. *)
Theorem Dockerfile_build :
  ∃ img,
    Dockerfile.build Dockerfile.instructions = Some img
    ∧ Dockerfile.python_3_11_slim (Dockerfile.base img) = true
    ∧ Dockerfile.apt_packages img = ["build-essential"; "wget"]
    ∧ Dockerfile.copied img = [("./", ".")]
    ∧ Dockerfile.requirement_files img
      = ["requirements.txt"; "requirements-jax.txt"]
    ∧ Dockerfile.pip_packages img = ["google-vizier[jax]"]
    ∧ Dockerfile.executed img = ["./build_protos.sh"]
    ∧ last Dockerfile.instructions = Some (Dockerfile.RUN [["./build_protos.sh"]]).
Proof. eexists. split; [reflexivity|]. repeat split; vm_compute; reflexivity. Qed.

Example Dockerfile_base :
  Dockerfile.base <$> Dockerfile.build Dockerfile.instructions
  = Some "python:3.11.4-slim".
Proof. reflexivity. Qed.


(** * Further properties of the notebook's code *)

(** ** [get_next_index] and [MyPolicy] with any supporter *)

(** X6. [get_next_index] never raises, whatever the supporter: it asks for
    the COMPLETED trials, then for the ACTIVE ones, once each, and returns 0
    when both answers are empty and otherwise the largest id among the
    trials answered (an id that occurs, and that no trial exceeds). *)
Theorem get_next_index_largest_id {Σ} (supporter : pythia.PolicySupporter Σ) (σ : Σ) :
  let completed := pythia.GetTrials supporter vz.COMPLETED σ in
  let active := pythia.GetTrials supporter vz.ACTIVE completed.2 in
  ∃ m, get_next_index supporter σ = (Ok m, active.2)
     ∧ active.2 = queried supporter σ
     ∧ (completed.1 ++ active.1 = [] → m = 0)
     ∧ (completed.1 ++ active.1 ≠ [] → m ∈ vz.id <$> completed.1 ++ active.1)
     ∧ Forall (fun t => vz.id t <= m) (completed.1 ++ active.1).
Proof.
  unfold get_next_index, queried.
  destruct (pythia.GetTrials supporter vz.COMPLETED σ) as [c σ1]. cbn [fst snd].
  destruct (pythia.GetTrials supporter vz.ACTIVE σ1) as [a σ2]. cbn [fst snd].
  destruct (c ++ a) as [|t l] eqn:Htrials.
  { exists 0. by repeat split. }
  destruct (py_max_spec (vz.id <$> t :: l)) as (m & Hmax & Helem & Hge); [done|].
  exists m. cbn [fmap list_fmap] in *. rewrite Hmax.
  repeat split; [done..|].
  apply Forall_forall. intros t' Ht'. rewrite Forall_forall in Hge.
  apply Hge. by apply (list_elem_of_fmap_2 vz.id (t :: l)).
Qed.

Lemma get_next_index_Ok {Σ} (supporter : pythia.PolicySupporter Σ) (σ : Σ) :
  ∃ m, get_next_index supporter σ = (Ok m, queried supporter σ).
Proof.
  unfold get_next_index, queried.
  destruct (pythia.GetTrials supporter vz.COMPLETED σ) as [c σ1]. cbn [fst snd].
  destruct (pythia.GetTrials supporter vz.ACTIVE σ1) as [a σ2]. cbn [fst snd].
  destruct (vz.id <$> c ++ a); by eexists.
Qed.

(** X7. A request for no suggestion ([count <= 0]) is answered without
    looking at the search space or asking the supporter: the decision is
    empty and the world behind the supporter is untouched. *)
Theorem MyPolicy_suggest_nothing {Σ} (self : MyPolicy.t Σ) (σ : Σ)
    (request : pythia.SuggestRequest) :
  pythia.count request <= 0 →
  MyPolicy.suggest request (self, σ)
  = (Ok {| pythia.suggestions := []; pythia.metadata := MetadataDelta_new |},
     (self, σ)).
Proof.
  intros Hcount. unfold MyPolicy.suggest. by rewrite range_nonpositive.
Qed.

Lemma MyPolicy_suggest_nothing_witness :
  MyPolicy.suggest (rate_request 0)
    (MyPolicy.__init__ counting_supporter, (two_trials, 7%nat))
  = (Ok {| pythia.suggestions := []; pythia.metadata := MetadataDelta_new |},
     (MyPolicy.__init__ counting_supporter, (two_trials, 7%nat))).
Proof.
  apply (MyPolicy_suggest_nothing
           (MyPolicy.__init__ counting_supporter) (two_trials, 7%nat)
           (rate_request 0)).
  simpl. lia.
Defined.

(** X8. As the code is, [MyPolicy.suggest] fails in its first iteration:
    on a search space with at least one parameter, a request for at least
    one suggestion raises the [AttributeError] of [make_parameters] after
    one round of the two queries of [get_next_index], for every supporter;
    the instance is as before. *)
Theorem MyPolicy_suggest_fails_first {Σ} (self : MyPolicy.t Σ) (σ : Σ)
    (request : pythia.SuggestRequest) :
  vz.parameters (vz.search_space (pythia.study_config request)) ≠ [] →
  0 < pythia.count request →
  MyPolicy.suggest request (self, σ)
  = (Raise (AttributeError "ParamterType"),
     (self, queried (MyPolicy._policy_supporter self) σ)).
Proof.
  intros Hparameters Hcount. unfold MyPolicy.suggest.
  destruct (range_positive _ Hcount) as [l ->]. cbn [MyPolicy.suggest_loop].
  destruct (get_next_index_Ok (MyPolicy._policy_supporter self) σ) as [m ->].
  cbn [bind]. rewrite make_parameters_outcome.
  by destruct (vz.parameters (vz.search_space (pythia.study_config request))).
Qed.

Lemma MyPolicy_suggest_fails_first_witness :
  MyPolicy.suggest (colours_request 3)
    (MyPolicy.__init__ counting_supporter, (two_trials, 0%nat))
  = (Raise (AttributeError "ParamterType"),
     (MyPolicy.__init__ counting_supporter,
      queried (MyPolicy._policy_supporter (MyPolicy.__init__ counting_supporter))
        (two_trials, 0%nat))).
Proof.
  apply (MyPolicy_suggest_fails_first
           (MyPolicy.__init__ counting_supporter) (two_trials, 0%nat)
           (colours_request 3)).
  - discriminate.
  - simpl. lia.
Defined.

Example MyPolicy_suggest_two_queries :
  (MyPolicy.suggest (colours_request 3)
     (MyPolicy.__init__ counting_supporter, (two_trials, 0%nat))).2.2
  = (two_trials, 2%nat).
Proof. reflexivity. Qed.

(** ** [MyDesigner]: recovery, and what [suggest] depends on *)

Lemma updates_snoc self calls call :
  MyDesigner.updates self (calls ++ [call])
  = MyDesigner.update (MyDesigner.updates self calls) call.1 call.2.
Proof. unfold MyDesigner.updates. by rewrite foldl_app. Qed.

Lemma updates_study_config self calls :
  MyDesigner._study_config (MyDesigner.updates self calls)
  = MyDesigner._study_config self.
Proof.
  revert self. induction calls as [|call calls IH]; intros self; [done|].
  unfold MyDesigner.updates in *. cbn [foldl]. by rewrite IH.
Qed.

(** X11. A designer that went through any session of updates is rebuilt
    by a single [update] after [__init__]: one call with all the completed
    trials of the session, in order, and the active trials of its last
    call gives the very same designer. *)
Theorem MyDesigner_recovered_by_one_update (study_config : vz.StudyConfig)
    (calls : list (CompletedTrials.t * ActiveTrials.t))
    (completed : CompletedTrials.t) (all_active : ActiveTrials.t) :
  MyDesigner.updates (MyDesigner.__init__ study_config)
    (calls ++ [(completed, all_active)])
  = MyDesigner.update (MyDesigner.__init__ study_config)
      {| CompletedTrials.trials :=
           concat ((fun call => CompletedTrials.trials call.1) <$> calls)
           ++ CompletedTrials.trials completed |}
      all_active.
Proof.
  rewrite updates_snoc. unfold MyDesigner.update.
  by rewrite updates_study_config, updates_completed.
Qed.

Lemma py_max_unique l m :
  m ∈ l → Forall (fun y => y <= m) l → py_max l = Ok m.
Proof.
  intros Hm Hle. destruct (py_max_spec l) as (m' & -> & Hm' & Hle').
  { intros ->. by apply elem_of_nil in Hm. }
  rewrite Forall_forall in Hle, Hle'.
  specialize (Hle m' Hm'). specialize (Hle' m Hm). f_equal. lia.
Qed.

Lemma py_max_same_elements l1 l2 :
  (∀ z, z ∈ l1 ↔ z ∈ l2) → py_max l1 = py_max l2.
Proof.
  intros Hsame. destruct l1 as [|x l1].
  - destruct l2 as [|y l2]; [done|].
    exfalso. apply (elem_of_nil y), Hsame. set_solver.
  - destruct (py_max_spec (x :: l1)) as (m & -> & Hm & Hle); [done|].
    symmetry. apply py_max_unique; [by apply Hsame|].
    apply Forall_forall. intros z Hz. rewrite Forall_forall in Hle.
    apply Hle. by apply Hsame.
Qed.

(** X12. [MyDesigner.suggest] looks at nothing but the study config and
    the ids of the stored trials: two designers with the same study config
    whose stored trials carry the same set of ids - in any order, with any
    split between completed and active, with any status or parameters -
    give the same result for every count. *)
Theorem MyDesigner_suggest_same_ids (self1 self2 : MyDesigner.t) (count : option Z) :
  MyDesigner._study_config self1 = MyDesigner._study_config self2 →
  (∀ z,
     z ∈ vz.id <$> MyDesigner._completed_trials self1
                   ++ MyDesigner._active_trials self1
     ↔ z ∈ vz.id <$> MyDesigner._completed_trials self2
                     ++ MyDesigner._active_trials self2) →
  MyDesigner.suggest self1 count = MyDesigner.suggest self2 count.
Proof.
  intros Hconfig Hids. unfold MyDesigner.suggest.
  destruct count as [count|]; [|done].
  by rewrite (py_max_same_elements _ _ Hids), Hconfig.
Qed.

Lemma MyDesigner_suggest_same_ids_witness :
  MyDesigner.suggest colours_designer (Some 2)
  = MyDesigner.suggest
      (MyDesigner.update
         (MyDesigner.__init__ {| vz.search_space := colours_and_sizes |})
         {| CompletedTrials.trials :=
              [trial 5 vz.COMPLETED; trial 3 vz.COMPLETED; trial 5 vz.STOPPING] |}
         {| ActiveTrials.trials := [] |})
      (Some 2).
Proof.
  apply MyDesigner_suggest_same_ids.
  - reflexivity.
  - intros z. cbn. set_solver.
Defined.

(** X14. As the code is, with a trial stored and a search space with at
    least one parameter, [MyDesigner.suggest(n)] returns the empty list for
    [n <= 0], without calling [make_parameters], and raises its
    [AttributeError] for [n >= 1]. *)
Theorem MyDesigner_suggest_refused (self : MyDesigner.t) (n : Z) :
  MyDesigner._completed_trials self ++ MyDesigner._active_trials self ≠ [] →
  vz.parameters (vz.search_space (MyDesigner._study_config self)) ≠ [] →
  MyDesigner.suggest self (Some n)
  = if decide (n <= 0) then Ok [] else Raise (AttributeError "ParamterType").
Proof.
  intros Hstored Hparameters. unfold MyDesigner.suggest.
  destruct (py_max_spec
              (vz.id <$> MyDesigner._completed_trials self
                         ++ MyDesigner._active_trials self))
    as (m & -> & _).
  { intros Hnil. by apply fmap_nil_inv in Hnil. }
  cbn [bind]. destruct (decide (n <= 0)) as [Hn|Hn].
  - by rewrite range_nonpositive.
  - destruct (range_positive n) as [l ->]; [lia|].
    apply comprehension_Raise. rewrite make_parameters_outcome.
    by destruct (vz.parameters (vz.search_space (MyDesigner._study_config self))).
Qed.

Lemma MyDesigner_suggest_refused_witness :
  MyDesigner.suggest colours_designer (Some 3)
  = if decide (3 <= 0) then Ok [] else Raise (AttributeError "ParamterType").
Proof.
  apply (MyDesigner_suggest_refused colours_designer 3); discriminate.
Defined.

Lemma next_index_py_max completed active :
  completed ++ active ≠ [] →
  py_max (vz.id <$> completed ++ active) = Ok (next_index completed active).
Proof.
  intros Hne. unfold next_index.
  destruct (completed ++ active) as [|t l]; [done|]. reflexivity.
Qed.

(** X15. The notebook rewrites the policy as a designer. Updated once with
    the trials a stable supporter answers (at least one), the designer
    asked for one suggestion makes the call of [make_parameters] that every
    iteration of [MyPolicy.suggest] makes: when it returns a suggestion,
    the policy's decision for [count >= 1] holds [count] copies of it, and
    when it raises, the policy raises the same exception. *)
Theorem MyDesigner_one_is_MyPolicy {Σ} (self : MyPolicy.t Σ) (σ : Σ)
    (request : pythia.SuggestRequest) (completed active : list vz.Trial) :
  Serves (MyPolicy._policy_supporter self) σ completed active →
  completed ++ active ≠ [] →
  0 < pythia.count request →
  match
    MyDesigner.suggest
      (MyDesigner.update (MyDesigner.__init__ (pythia.study_config request))
         {| CompletedTrials.trials := completed |}
         {| ActiveTrials.trials := active |})
      (Some 1)
  with
  | Ok suggestions =>
      ∃ parameters,
        suggestions = [parameters]
        ∧ (MyPolicy.suggest request (self, σ)).1
          = Ok {| pythia.suggestions :=
                    replicate (Z.to_nat (pythia.count request))
                      {| vz.suggestion_parameters := parameters |};
                  pythia.metadata := MetadataDelta_new |}
  | Raise e => (MyPolicy.suggest request (self, σ)).1 = Raise e
  end.
Proof.
  intros Hserves Htrials Hcount.
  destruct (suggest_stable self σ request _ _ Hserves) as (σ' & _ & ->).
  unfold suggest_outcome, MyDesigner.suggest.
  cbn [MyDesigner.update MyDesigner.__init__ MyDesigner._completed_trials
       MyDesigner._active_trials MyDesigner._study_config
       CompletedTrials.trials ActiveTrials.trials app fst].
  rewrite (next_index_py_max _ _ Htrials). cbn [bind].
  destruct (range_positive _ Hcount) as [l Hrange]. rewrite Hrange.
  change (range 1) with [0]. cbn [comprehension]. rewrite Z.add_0_r.
  destruct (make_parameters _ (next_index completed active))
    as [parameters|e]; cbn [bind]; [|done].
  by exists parameters.
Qed.

Lemma MyDesigner_one_is_MyPolicy_witness :
  match
    MyDesigner.suggest
      (MyDesigner.update
         (MyDesigner.__init__ (pythia.study_config (colours_request 2)))
         {| CompletedTrials.trials := [trial 3 vz.COMPLETED] |}
         {| ActiveTrials.trials := [trial 5 vz.ACTIVE] |})
      (Some 1)
  with
  | Ok suggestions =>
      ∃ parameters,
        suggestions = [parameters]
        ∧ (MyPolicy.suggest (colours_request 2)
             (MyPolicy.__init__ in_ram_supporter, two_trials)).1
          = Ok {| pythia.suggestions :=
                    replicate (Z.to_nat (pythia.count (colours_request 2)))
                      {| vz.suggestion_parameters := parameters |};
                  pythia.metadata := MetadataDelta_new |}
  | Raise e =>
      (MyPolicy.suggest (colours_request 2)
         (MyPolicy.__init__ in_ram_supporter, two_trials)).1 = Raise e
  end.
Proof.
  apply (MyDesigner_one_is_MyPolicy
           (MyPolicy.__init__ in_ram_supporter) two_trials (colours_request 2)
           [trial 3 vz.COMPLETED] [trial 5 vz.ACTIVE]).
  - exact (Serves_in_ram two_trials).
  - discriminate.
  - simpl. lia.
Defined.

(** ** The counter designers: sessions and serialized forms *)

Lemma suggested_nonneg rs : 0 <= CounterDesigner.suggested rs.
Proof.
  induction rs as [|r rs IH]; [done|].
  change (CounterDesigner.suggested (r :: rs))
    with (match r with
          | Ok l => len l + CounterDesigner.suggested rs
          | Raise _ => CounterDesigner.suggested rs
          end).
  destruct r; unfold len; lia.
Qed.

(** X16. From any state of a [CounterDesigner], a session of [suggest]
    calls adds to [_counter] exactly the number of suggestions the calls
    returned; the counter never decreases. *)
Theorem CounterDesigner_counter_grows {Rest : Type}
    (compute_suggestions :
       CounterDesigner.t Rest → option Z → result (list vz.TrialSuggestion) * Rest)
    (self : CounterDesigner.t Rest) (counts : list (option Z)) :
  CounterDesigner._counter
    (CounterDesigner.session compute_suggestions self counts).2
  = CounterDesigner._counter self
    + CounterDesigner.suggested
        (CounterDesigner.session compute_suggestions self counts).1
  ∧ CounterDesigner._counter self
    <= CounterDesigner._counter
         (CounterDesigner.session compute_suggestions self counts).2.
Proof.
  assert (CounterDesigner._counter
            (CounterDesigner.session compute_suggestions self counts).2
          = CounterDesigner._counter self
            + CounterDesigner.suggested
                (CounterDesigner.session compute_suggestions self counts).1)
    as Hsum.
  { revert self. induction counts as [|count counts IH]; intros self.
    - cbn. lia.
    - cbn [CounterDesigner.session].
      assert (CounterDesigner._counter
                (CounterDesigner.suggest compute_suggestions self count).2
              = CounterDesigner._counter self
                + match (CounterDesigner.suggest compute_suggestions self count).1
                  with Ok l => len l | Raise _ => 0 end) as Hstep.
      { unfold CounterDesigner.suggest.
        destruct (compute_suggestions self count) as [[l|e] rest'];
          cbn [fst snd CounterDesigner._counter]; lia. }
      destruct (CounterDesigner.suggest compute_suggestions self count)
        as [r self1].
      specialize (IH self1).
      destruct (CounterDesigner.session compute_suggestions self1 counts)
        as [rs self2].
      cbn [fst snd] in *. rewrite IH, Hstep.
      unfold CounterDesigner.suggested. cbn [foldr]. destruct r; lia. }
  split; [exact Hsum|]. rewrite Hsum.
  pose proof (suggested_nonneg
                (CounterDesigner.session compute_suggestions self counts).1).
  lia.
Qed.

Lemma decimal_inj (a b : Z) :
  (decimal_digits a ≤ int_max_str_digits)%nat →
  (decimal_digits b ≤ int_max_str_digits)%nat →
  decimal a = decimal b → a = b.
Proof.
  intros Ha Hb Heq. pose proof (py_int_decimal a Ha) as Hint.
  rewrite Heq, (py_int_decimal b Hb) in Hint. congruence.
Qed.

Lemma py_str_int_Ok (c : Z) s :
  py_str (PyInt c) = Ok s →
  (decimal_digits c ≤ int_max_str_digits)%nat ∧ s = decimal c.
Proof.
  unfold py_str.
  destruct (Nat.ltb_spec int_max_str_digits (decimal_digits c)); [done|].
  intros [= <-]. split; [lia|done].
Qed.

(** X17. Seen from the metadata, [CounterSerialDesigner] round-trips:
    [recover] raises only a [KeyError], and only when ['counter'] is
    missing; otherwise the designer it returns dumps to the metadata that
    holds the same ['counter'] entry and nothing else, and recovering that
    dump gives the same designer again. *)
Theorem CounterSerialDesigner_recover_dump (metadata : gmap string str) :
  match CounterSerialDesigner.recover metadata with
  | Ok d =>
      ∃ s, metadata !! "counter" = Some s
         ∧ CounterSerialDesigner.dump d = Ok {[ "counter" := s ]}
         ∧ CounterSerialDesigner.recover {[ "counter" := s ]} = Ok d
  | Raise e => e = KeyError "counter" ∧ metadata !! "counter" = None
  end.
Proof.
  unfold CounterSerialDesigner.recover, Metadata.getitem.
  destruct (metadata !! "counter") as [s|] eqn:Hs; cbn [bind]; [|done].
  exists s. split; [done|]. split; [done|]. by rewrite lookup_singleton_eq.
Qed.

(** X18. [recover(d.dump())] gives [d] back exactly when [d]'s counter is a
    string. *)
Theorem CounterSerialDesigner_round_trip_iff (d : CounterSerialDesigner.t) :
  (do metadata <- CounterSerialDesigner.dump d;
   CounterSerialDesigner.recover metadata) = Ok d
  ↔ ∃ s, CounterSerialDesigner._counter d = PyStr s.
Proof.
  destruct d as [[c|s]]; unfold CounterSerialDesigner.dump;
    cbn [CounterSerialDesigner._counter]; split.
  - destruct (py_str (PyInt c)) as [s|e]; cbn [bind]; [|done].
    unfold CounterSerialDesigner.recover, Metadata.getitem, Metadata.setitem.
    rewrite lookup_insert_eq. intros [=].
  - by intros [s [=]].
  - intros _. by exists s.
  - intros _. cbn [py_str bind].
    unfold CounterSerialDesigner.recover, Metadata.getitem, Metadata.setitem.
    by rewrite lookup_insert_eq.
Qed.

(** X19. [CounterSerialDesigner.dump] keeps int counters apart: two
    designers built with different ints never dump to the same metadata.
    It does not keep an int (within the limit of 4300 digits) apart from
    the string of its digits, which dumps to the same metadata. *)
Theorem CounterSerialDesigner_dump_injective :
  (∀ (a b : Z) metadata,
     CounterSerialDesigner.dump (CounterSerialDesigner.__init__ (PyInt a))
     = Ok metadata →
     CounterSerialDesigner.dump (CounterSerialDesigner.__init__ (PyInt b))
     = Ok metadata →
     a = b)
  ∧ ∀ c : Z,
      (decimal_digits c ≤ int_max_str_digits)%nat →
      CounterSerialDesigner.dump (CounterSerialDesigner.__init__ (PyInt c))
      = CounterSerialDesigner.dump
          (CounterSerialDesigner.__init__ (PyStr (decimal c))).
Proof.
  unfold CounterSerialDesigner.dump.
  cbn [CounterSerialDesigner._counter CounterSerialDesigner.__init__].
  split.
  - intros a b metadata.
    destruct (py_str (PyInt a)) as [sa|] eqn:Ha; cbn [bind]; [|done].
    destruct (py_str (PyInt b)) as [sb|] eqn:Hb; cbn [bind]; [|done].
    apply py_str_int_Ok in Ha as [Ha ->]. apply py_str_int_Ok in Hb as [Hb ->].
    intros Hma Hmb.
    assert (Metadata.setitem Metadata.new "counter" (decimal a) !! "counter"
            = Metadata.setitem Metadata.new "counter" (decimal b) !! "counter")
      as Heq by congruence.
    unfold Metadata.setitem in Heq. rewrite !lookup_insert_eq in Heq.
    apply decimal_inj; congruence.
  - intros c Hlimit. by rewrite (py_str_int c Hlimit).
Qed.

(** X21. [dump] undoes [load] up to the spelling of the int: when [load]
    returns a designer, that designer dumps, the dump holds the digits of
    its counter, and loading the dump on any designer gives the same
    designer again. *)
Theorem CounterPartialDesigner_dump_load
    (self self' d : CounterPartialDesigner.t) (metadata : gmap string str) :
  CounterPartialDesigner.load self metadata = Ok d →
  ∃ c dumped,
    CounterPartialDesigner._counter d = Some (PyInt c)
    ∧ CounterPartialDesigner.dump d = Ok dumped
    ∧ dumped !! "counter" = Some (decimal c)
    ∧ CounterPartialDesigner.load self' dumped = Ok d.
Proof.
  unfold CounterPartialDesigner.load at 1, Metadata.getitem.
  destruct (metadata !! "counter") as [s|]; cbn [bind]; [|done].
  destruct (py_int (PyStr s)) as [c|e] eqn:Hint; cbn [bind]; [|done].
  intros [= <-]. pose proof (py_int_within_limit s c Hint) as Hlimit.
  exists c. eexists. split; [done|].
  cbn [CounterPartialDesigner.dump CounterPartialDesigner._counter].
  rewrite (py_str_int c Hlimit). cbn [bind]. split; [done|].
  unfold Metadata.setitem. rewrite lookup_insert_eq. split; [done|].
  unfold CounterPartialDesigner.load, Metadata.getitem.
  rewrite lookup_insert_eq. cbn [bind]. by rewrite py_int_decimal.
Qed.

Lemma CounterPartialDesigner_dump_load_witness :
  ∃ c dumped,
    CounterPartialDesigner._counter
      {| CounterPartialDesigner._counter := Some (PyInt 42) |} = Some (PyInt c)
    ∧ CounterPartialDesigner.dump
        {| CounterPartialDesigner._counter := Some (PyInt 42) |} = Ok dumped
    ∧ dumped !! "counter" = Some (decimal c)
    ∧ CounterPartialDesigner.load
        {| CounterPartialDesigner._counter := Some (PyStr (codepoints "x")) |}
        dumped
      = Ok {| CounterPartialDesigner._counter := Some (PyInt 42) |}.
Proof.
  apply (CounterPartialDesigner_dump_load
           {| CounterPartialDesigner._counter := None |}
           {| CounterPartialDesigner._counter := Some (PyStr (codepoints "x")) |}
           {| CounterPartialDesigner._counter := Some (PyInt 42) |}
           {[ "counter" := codepoints " +4_2 " ]}).
  vm_compute. reflexivity.
Defined.

(** X22. The two designers share the serialized form: what
    [CounterSerialDesigner] dumps for an int counter within the limit of
    4300 digits, before or after its own [recover],
    [CounterPartialDesigner.load] reads back as that int. *)
Theorem CounterPartialDesigner_loads_serial_dump (c : Z)
    (self : CounterPartialDesigner.t) :
  (decimal_digits c ≤ int_max_str_digits)%nat →
  (do dumped <-
     CounterSerialDesigner.dump (CounterSerialDesigner.__init__ (PyInt c));
   CounterPartialDesigner.load self dumped)
  = Ok {| CounterPartialDesigner._counter := Some (PyInt c) |}
  ∧ (do dumped <-
       CounterSerialDesigner.dump (CounterSerialDesigner.__init__ (PyInt c));
     do recovered <- CounterSerialDesigner.recover dumped;
     do dumped <- CounterSerialDesigner.dump recovered;
     CounterPartialDesigner.load self dumped)
    = Ok {| CounterPartialDesigner._counter := Some (PyInt c) |}.
Proof.
  intros Hlimit. unfold CounterSerialDesigner.dump at 1 2.
  cbn [CounterSerialDesigner._counter CounterSerialDesigner.__init__].
  rewrite (py_str_int c Hlimit). cbn [bind].
  assert (CounterPartialDesigner.load self
            (Metadata.setitem Metadata.new "counter" (decimal c))
          = Ok {| CounterPartialDesigner._counter := Some (PyInt c) |}) as Hload.
  { unfold CounterPartialDesigner.load, Metadata.getitem, Metadata.setitem.
    rewrite lookup_insert_eq. cbn [bind]. by rewrite py_int_decimal. }
  split; [exact Hload|].
  unfold CounterSerialDesigner.recover, Metadata.getitem.
  unfold Metadata.setitem at 1. rewrite lookup_insert_eq. cbn [bind].
  unfold CounterSerialDesigner.dump.
  cbn [CounterSerialDesigner._counter CounterSerialDesigner.__init__ py_str bind].
  exact Hload.
Qed.

Lemma CounterPartialDesigner_loads_serial_dump_witness :
  (do dumped <-
     CounterSerialDesigner.dump (CounterSerialDesigner.__init__ (PyInt 42));
   CounterPartialDesigner.load {| CounterPartialDesigner._counter := None |} dumped)
  = Ok {| CounterPartialDesigner._counter := Some (PyInt 42) |}
  ∧ (do dumped <-
       CounterSerialDesigner.dump (CounterSerialDesigner.__init__ (PyInt 42));
     do recovered <- CounterSerialDesigner.recover dumped;
     do dumped <- CounterSerialDesigner.dump recovered;
     CounterPartialDesigner.load {| CounterPartialDesigner._counter := None |} dumped)
    = Ok {| CounterPartialDesigner._counter := Some (PyInt 42) |}.
Proof.
  apply (CounterPartialDesigner_loads_serial_dump 42
           {| CounterPartialDesigner._counter := None |}).
  vm_compute. lia.
Defined.
